(** * Identity resolution of the agentic app platform

    A shallow embedding of the authentication layer
    ([lib/jwt-decode.ts], [lib/user-types.ts], [lib/server-auth.ts],
    [lib/user-context.tsx], the route [GET /api/auth/user] and the
    [useAuth] hook) and the properties its specification states about it.

    TypeScript types are erased at run time, so the embedding works on
    JavaScript values: what [JSON.parse] returns is whatever the token
    carries, and the interfaces of [user-types.ts] are predicates on
    those values, not types of the model. *)

From Stdlib Require Import ZArith Ascii String.
From Stdlib Require Import SpecFloat.
From stdpp Require Import base option list strings gmap.

Local Open Scope string_scope.
#[local] Set Warnings "-register-all".

(** ** JavaScript values *)

Module JS.

(** The values the program handles: what [JSON.parse] builds, plus
    [undefined] (a missing property) and the built-in function of a
    given name (found on a prototype). Numbers are IEEE 754 doubles. An
    object is the list of its own properties; [JSON.parse] never yields
    the same key twice. *)
Inductive value : Type :=
| VUndefined
| VNull
| VBool (b : bool)
| VNum (x : spec_float)
| VStr (s : string)
| VArr (items : list value)
| VObj (props : list (string * value))
| VFunction (name : string).

(** [ToBoolean]: the test behind [if (v)], [!v] and [a || b]. *)
Definition truthy (v : value) : bool :=
  match v with
  | VUndefined | VNull => false
  | VBool b => b
  | VNum (S754_zero _) | VNum S754_nan => false
  | VNum _ => true
  | VStr s => negb (String.eqb s "")
  | VArr _ | VObj _ | VFunction _ => true
  end.

(** [a || b] on values already computed. *)
Definition or (a b : value) : value := if truthy a then a else b.

(** Errors a JavaScript operation can throw. *)
Inductive Error : Type :=
| SyntaxError (message : string)
| TypeError (message : string)
| RangeError (message : string).

(** The result of an operation that returns or throws. *)
Inductive outcome (A : Type) : Type :=
| Ret (a : A)
| Throw (e : Error).
Global Arguments Ret {A} a.
Global Arguments Throw {A} e.

(** Own property of an object. *)
Fixpoint own (props : list (string * value)) (k : string) : option value :=
  match props with
  | [] => None
  | (k', v) :: rest => if String.eqb k' k then Some v else own rest k
  end.

(** [v.k] for the property names this program reads on a payload
    ([email], [sub], [name], [picture], [avatar_url]). Reading a property
    of [null] or [undefined] throws; on an object the own property
    answers, and none of these names is inherited from
    [Object.prototype], [Array.prototype], [Number.prototype] or
    [Boolean.prototype]. A primitive string inherits [sub] from
    [String.prototype], and a function has its [name]. *)
Definition get (v : value) (k : string) : outcome value :=
  match v with
  | VUndefined => Throw (TypeError "Cannot read properties of undefined")
  | VNull => Throw (TypeError "Cannot read properties of null")
  | VObj props => Ret (default VUndefined (own props k))
  | VStr _ => Ret (if String.eqb k "sub" then VFunction "sub" else VUndefined)
  | VFunction name => Ret (if String.eqb k "name" then VStr name else VUndefined)
  | VBool _ | VNum _ | VArr _ => Ret VUndefined
  end.

(** [s.split(sep)] for a one-character separator: the pieces between
    the occurrences of [sep]; the empty string has one (empty) piece. *)
Fixpoint split (sep : ascii) (s : string) : list string :=
  match s with
  | "" => [""]
  | String c rest =>
      if Ascii.eqb c sep then "" :: split sep rest
      else match split sep rest with
           | [] => [String c ""]
           | piece :: pieces => String c piece :: pieces
           end
  end.

End JS.
Export JS.

(** ** Effects: the console and exceptions *)

Inductive Level : Type := LevelError | LevelWarn | LevelLog.

(** One call of [console.error], [console.warn] or [console.log]. *)
Record LogEntry : Type := mkLog {
  level : Level;
  text : string;
  detail : option Error
}.

(** A computation writes to the console and then returns or throws. *)
Definition M (A : Type) : Type := list LogEntry * outcome A.

Definition logs {A} (m : M A) : list LogEntry := fst m.
Definition result {A} (m : M A) : outcome A := snd m.

Global Instance M_ret : MRet M := λ A a, ([], Ret a).
Global Instance M_bind : MBind M := λ A B f m,
  match m with
  | (l, Ret a) => let '(l', r) := f a in ((l ++ l')%list, r)
  | (l, Throw e) => (l, Throw e)
  end.
Global Instance M_throw : MThrow Error M := λ A e, ([], Throw e).

Global Instance outcome_ret : MRet outcome := λ A a, Ret a.
Global Instance outcome_bind : MBind outcome := λ A B f o,
  match o with
  | Ret a => f a
  | Throw e => Throw e
  end.

(** A platform operation takes part in a computation without logging. *)
Definition lift {A} (o : outcome A) : M A := ([], o).

(** [try { body } catch (error) { handler }]. *)
Definition try_catch {A} (body : M A) (handler : Error → M A) : M A :=
  match body with
  | (l, Ret a) => (l, Ret a)
  | (l, Throw e) => let '(l', r) := handler e in ((l ++ l')%list, r)
  end.

Definition console_error (msg : string) (e : Error) : M unit :=
  ([mkLog LevelError msg (Some e)], Ret tt).
Definition console_warn (msg : string) : M unit :=
  ([mkLog LevelWarn msg None], Ret tt).
Definition console_log (msg : string) : M unit :=
  ([mkLog LevelLog msg None], Ret tt).

(** ** The platform *)

(** The two library operations [decodeJWT] calls. Node's
    [Buffer.from(s, 'base64url').toString('utf-8')] and [JSON.parse] are
    not part of the repository: the program is verified for every
    behaviour they may have, returning or throwing. *)
Class Platform : Type := {
  Buffer_from_base64url_toString_utf8 : string → outcome string;
  JSON_parse : string → outcome value
}.

(** ** [lib/user-types.ts] *)

Module User.
Record t : Type := mk {
  id : value;
  email : value;
  name : value;
  avatar_url : value
}.
End User.

Module UserSession.
(** [access_token] is optional: [None] is the missing property. *)
Record t : Type := mk {
  user : User.t;
  access_token : option string
}.
End UserSession.

Module UserTeam.
Record t : Type := mk {
  id : value;
  email : value;
  name : value;
  tier : string
}.
End UserTeam.

(** ** [lib/jwt-decode.ts] *)

Section JwtDecode.
Context {P : Platform}.

Definition decodeJWT (token : string) : M value :=
  try_catch
    (let parts := split "." token in
     if bool_decide (length parts ≠ 3) then mret VNull
     else
       match parts !! 1 with
       | None => mthrow (TypeError "The first argument must be of type string")
       | Some payload =>
           decoded ← lift (Buffer_from_base64url_toString_utf8 payload);
           lift (JSON_parse decoded)
       end)
    (λ error,
       console_error "[JWT] Failed to decode token:" error;;
       mret VNull).

(** [a || b] with [b] evaluated only when [a] is falsy. *)
Definition or_else (a b : M value) : M value :=
  x ← a; if truthy x then mret x else b.

Definition extractUserFromJWT (payload : value) : M (option User.t) :=
  email ← lift (get payload "email");
  if negb (truthy email) then
    console_warn "[JWT] No email claim in token";;
    mret None
  else
    id ← or_else (lift (get payload "sub")) (lift (get payload "email"));
    email ← lift (get payload "email");
    name ← lift (get payload "name");
    avatar_url ← or_else (lift (get payload "picture"))
                         (lift (get payload "avatar_url"));
    mret (Some (User.mk id email name avatar_url)).

End JwtDecode.

Global Arguments decodeJWT {P} token : simpl never.
Global Arguments extractUserFromJWT payload : simpl never.

(** ** [lib/server-auth.ts] *)

(** Mock user for local and testing environments. *)
Definition MOCK_USER : User.t :=
  User.mk (VStr "dev-user-001") (VStr "developer@localhost.dev")
          (VStr "Local Developer") VUndefined.

(** Header carrying the token of the identity-aware proxy. *)
Definition AUTH_HEADER : string := "x-goog-iap-jwt-assertion".

(** [process.env]: the variables that are set, by name. *)
Abbreviation Env := (gmap string string).

(** The request headers as [headers()] gives them: [get] looks a
    lower-case name up and answers [null] ([None]) when it is not there. *)
Abbreviation Headers := (gmap string string).

Definition isMockAuthEnabled (env : Env) : bool :=
  if bool_decide (env !! "MOCK_AUTH" = Some "true") then true
  else if bool_decide (env !! "NODE_ENV" = Some "development") then true
  else false.

Section ServerAuth.
Context {P : Platform}.

(** The [if (forwardedUser) { ... }] block: [Some session] when it
    returns from the function, [None] when control falls out of it. *)
Definition fromHeader (forwardedUser : option string)
  : M (option UserSession.t) :=
  match forwardedUser with
  | None => mret None
  | Some token =>
      if String.eqb token "" then mret None
      else
        payload ← decodeJWT token;
        if negb (truthy payload) then
          console_warn "[Auth] Invalid JWT in header";;
          mret None
        else
          user ← extractUserFromJWT payload;
          match user with
          | Some user => mret (Some (UserSession.mk user (Some token)))
          | None =>
              console_warn "[Auth] Could not extract user from JWT";;
              mret None
          end
  end.

Definition getUserFromHeaders (env : Env) (headersList : Headers)
  : M (option UserSession.t) :=
  let forwardedUser := headersList !! AUTH_HEADER in
  returned ← fromHeader forwardedUser;
  match returned with
  | Some session => mret (Some session)
  | None =>
      if isMockAuthEnabled env then
        console_log
          "[Auth] Using mock user (MOCK_AUTH enabled or development mode)";;
        mret (Some (UserSession.mk MOCK_USER None))
      else
        console_log
          "[Auth] No user - X-Forwarded-User header missing and mock auth disabled";;
        mret None
  end.

End ServerAuth.

(** ** The route [GET /api/auth/user] *)

Record ResponseInit : Type := { init_status : option Z }.

Record Response : Type := mkResponse {
  status : Z;
  body : value
}.

(** [NextResponse.json(body, init)]: the status is the one [init] gives,
    200 when it gives none. *)
Definition NextResponse_json (body : value) (init : option ResponseInit)
  : Response :=
  mkResponse (default 200%Z (init ≫= init_status)) body.

(** The object a [User] is at run time. *)
Definition User_object (u : User.t) : value :=
  VObj [("id", User.id u); ("email", User.email u);
        ("name", User.name u); ("avatar_url", User.avatar_url u)].

Definition optional_string (s : option string) : value :=
  match s with Some s => VStr s | None => VUndefined end.

Section Route.
Context {P : Platform}.

Definition GET (env : Env) (headersList : Headers) : M Response :=
  session ← getUserFromHeaders env headersList;
  match session with
  | None =>
      mret (NextResponse_json (VObj [("user", VNull)])
                              (Some {| init_status := Some 200%Z |}))
  | Some session =>
      mret (NextResponse_json
              (VObj [("user", User_object (UserSession.user session));
                     ("access_token",
                      optional_string (UserSession.access_token session))])
              None)
  end.

End Route.

(** ** The [useAuth] hook *)

(** What [useUser()] reads from the context. *)
Record UserContextValue : Type := {
  ctx_session : option UserSession.t;
  ctx_isLoading : bool
}.

Module Compat.
Record user_metadata : Type := { avatar_url : value }.
Record user : Type := {
  id : value;
  email : value;
  metadata : user_metadata
}.
(** The session in the shape older components expect. *)
Record session : Type := {
  session_user : user;
  access_token : option string
}.
End Compat.

Record Auth : Type := {
  session : option Compat.session;
  userTeam : option UserTeam.t;
  isLoading : bool
}.

(** [useAuth] ignores its two parameters; the context value is what
    [useUser()] returns. *)
Definition useAuth (ctx : UserContextValue) : Auth :=
  let session := ctx_session ctx in
  let compatSession :=
    match session with
    | Some session =>
        Some {| Compat.session_user :=
                  {| Compat.id := User.id (UserSession.user session);
                     Compat.email := User.email (UserSession.user session);
                     Compat.metadata :=
                       {| Compat.avatar_url :=
                            User.avatar_url (UserSession.user session) |} |};
                Compat.access_token := UserSession.access_token session |}
    | None => None
    end in
  let userTeam :=
    match session with
    | Some session =>
        Some (UserTeam.mk
                (User.id (UserSession.user session))
                (User.email (UserSession.user session))
                (JS.or (User.name (UserSession.user session))
                       (User.email (UserSession.user session)))
                "default")
    | None => None
    end in
  {| session := compatSession; userTeam := userTeam;
     isLoading := ctx_isLoading ctx |}.

(** ** A reference platform

    An executable model of the two platform operations, used to run the
    program on concrete tokens. Strings are the UTF-8 bytes of the
    JavaScript string. Every theorem below is proved for an arbitrary
    [Platform]; this one supplies the examples. *)

Module Node.

Local Open Scope N_scope.

(** *** [Buffer.from(s, 'base64url')] *)

(** The value of a base64 digit; both alphabets are accepted. *)
Definition unbase64 (c : ascii) : option N :=
  let n := N_of_ascii c in
  if (65 <=? n) && (n <=? 90) then Some (n - 65)
  else if (97 <=? n) && (n <=? 122) then Some (n - 71)
  else if (48 <=? n) && (n <=? 57) then Some (n + 4)
  else if (n =? 43) || (n =? 45) then Some 62
  else if (n =? 47) || (n =? 95) then Some 63
  else None.

(** Characters outside the alphabet are skipped; [=] ends the input. *)
Fixpoint sextets (s : string) : list N :=
  match s with
  | "" => []
  | String c rest =>
      if Ascii.eqb c "=" then []
      else match unbase64 c with
           | Some d => d :: sextets rest
           | None => sextets rest
           end
  end.

Fixpoint octets (ds : list N) : list N :=
  match ds with
  | a :: b :: c :: d :: rest =>
      N.lor (N.shiftl a 2) (N.shiftr b 4)
      :: N.lor (N.shiftl (N.land b 15) 4) (N.shiftr c 2)
      :: N.lor (N.shiftl (N.land c 3) 6) d
      :: octets rest
  | [a; b; c] =>
      [N.lor (N.shiftl a 2) (N.shiftr b 4);
       N.lor (N.shiftl (N.land b 15) 4) (N.shiftr c 2)]
  | [a; b] => [N.lor (N.shiftl a 2) (N.shiftr b 4)]
  | _ => []
  end.

Definition base64_decode (s : string) : list N := octets (sextets s).

(** *** [buffer.toString('utf-8')] *)

Definition REPLACEMENT : list N := [0xEF; 0xBF; 0xBD].

(** A sequence under way: the bytes seen, how many are still needed,
    and the range the next one must lie in. *)
Definition utf8_state : Type := list N * nat * N * N.

(** A byte met outside a sequence: what it emits and what it opens. *)
Definition utf8_lead (b : N) : list N * option utf8_state :=
  if b <=? 0x7F then ([b], None)
  else if (0xC2 <=? b) && (b <=? 0xDF) then
    ([], Some ([b], 1%nat, 0x80, 0xBF))
  else if (0xE0 <=? b) && (b <=? 0xEF) then
    ([], Some ([b], 2%nat, if b =? 0xE0 then 0xA0 else 0x80,
                          if b =? 0xED then 0x9F else 0xBF))
  else if (0xF0 <=? b) && (b <=? 0xF4) then
    ([], Some ([b], 3%nat, if b =? 0xF0 then 0x90 else 0x80,
                          if b =? 0xF4 then 0x8F else 0xBF))
  else (REPLACEMENT, None).

(** Well-formed sequences pass; each ill-formed one becomes U+FFFD. *)
Fixpoint utf8_scrub (st : option utf8_state) (bytes : list N) : list N :=
  match bytes with
  | [] => match st with None => [] | Some _ => REPLACEMENT end
  | b :: rest =>
      match st with
      | None =>
          let '(out, st') := utf8_lead b in (out ++ utf8_scrub st' rest)%list
      | Some (seen, needed, lo, hi) =>
          if (lo <=? b) && (b <=? hi) then
            match needed with
            | S (S n) =>
                utf8_scrub (Some ((seen ++ [b])%list, S n, 0x80, 0xBF)) rest
            | _ => (seen ++ b :: utf8_scrub None rest)%list
            end
          else
            let '(out, st') := utf8_lead b in
            (REPLACEMENT ++ out ++ utf8_scrub st' rest)%list
      end
  end.

Definition string_of_bytes (bytes : list N) : string :=
  foldr (λ b s, String (ascii_of_N b) s) "" bytes.

Definition Buffer_from_base64url_toString_utf8 (s : string) : outcome string :=
  Ret (string_of_bytes (utf8_scrub None (base64_decode s))).

(** *** [JSON.parse] *)

Definition is_ws (c : ascii) : bool :=
  let n := N_of_ascii c in
  (n =? 32) || (n =? 9) || (n =? 10) || (n =? 13).

Fixpoint skip_ws (s : string) : string :=
  match s with
  | "" => ""
  | String c rest => if is_ws c then skip_ws rest else s
  end.

Fixpoint strip_prefix (p s : string) : option string :=
  match p, s with
  | "", _ => Some s
  | String a p', String b s' =>
      if Ascii.eqb a b then strip_prefix p' s' else None
  | _, "" => None
  end.

Definition hex (c : ascii) : option N :=
  let n := N_of_ascii c in
  if (48 <=? n) && (n <=? 57) then Some (n - 48)
  else if (65 <=? n) && (n <=? 70) then Some (n - 55)
  else if (97 <=? n) && (n <=? 102) then Some (n - 87)
  else None.

Definition hex4 (s : string) : option (N * string) :=
  match s with
  | String a (String b (String c (String d rest))) =>
      ha ← hex a; hb ← hex b; hc ← hex c; hd ← hex d;
      Some (((ha * 16 + hb) * 16 + hc) * 16 + hd, rest)
  | _ => None
  end.

(** The UTF-8 bytes of a code point; a lone surrogate is written the
    same way, as three bytes. *)
Definition utf8_encode (cp : N) : list N :=
  if cp <? 0x80 then [cp]
  else if cp <? 0x800 then
    [N.lor 0xC0 (N.shiftr cp 6); N.lor 0x80 (N.land cp 0x3F)]
  else if cp <? 0x10000 then
    [N.lor 0xE0 (N.shiftr cp 12);
     N.lor 0x80 (N.land (N.shiftr cp 6) 0x3F);
     N.lor 0x80 (N.land cp 0x3F)]
  else
    [N.lor 0xF0 (N.shiftr cp 18);
     N.lor 0x80 (N.land (N.shiftr cp 12) 0x3F);
     N.lor 0x80 (N.land (N.shiftr cp 6) 0x3F);
     N.lor 0x80 (N.land cp 0x3F)].

(** [\uXXXX] and what follows it: a high surrogate joins the low
    surrogate escape right after it. *)
Definition unicode_escape (s : string) : option (list N * string) :=
  '(u, r1) ← hex4 s;
  if (0xD800 <=? u) && (u <=? 0xDBFF) then
    match strip_prefix "\u" r1 ≫= hex4 with
    | Some (lo, r2) =>
        if (0xDC00 <=? lo) && (lo <=? 0xDFFF) then
          Some (utf8_encode (0x10000 + (u - 0xD800) * 0x400 + (lo - 0xDC00)),
                r2)
        else Some (utf8_encode u, r1)
    | None => Some (utf8_encode u, r1)
    end
  else Some (utf8_encode u, r1).

(** The characters of a string literal, after its opening quote, up to
    and including the closing one. *)
Fixpoint parse_chars (fuel : nat) (s : string) : option (list N * string) :=
  match fuel with
  | O => None
  | S fuel =>
      match s with
      | "" => None
      | String c rest =>
          let n := N_of_ascii c in
          if n =? 34 then Some ([], rest)
          else if n =? 92 then
            match rest with
            | "" => None
            | String e rest' =>
                let escaped (bytes : option (list N * string)) :=
                  '(bs, r) ← bytes;
                  '(cs, r') ← parse_chars fuel r;
                  Some ((bs ++ cs)%list, r') in
                let m := N_of_ascii e in
                if (m =? 34) || (m =? 92) || (m =? 47) then
                  escaped (Some ([m], rest'))
                else if Ascii.eqb e "b" then escaped (Some ([8], rest'))
                else if Ascii.eqb e "f" then escaped (Some ([12], rest'))
                else if Ascii.eqb e "n" then escaped (Some ([10], rest'))
                else if Ascii.eqb e "r" then escaped (Some ([13], rest'))
                else if Ascii.eqb e "t" then escaped (Some ([9], rest'))
                else if Ascii.eqb e "u" then escaped (unicode_escape rest')
                else None
            end
          else if n <? 32 then None
          else '(cs, r) ← parse_chars fuel rest; Some (n :: cs, r)
      end
  end.

Definition parse_string (s : string) : option (string * string) :=
  '(cs, r) ← parse_chars (S (String.length s)) s;
  Some (string_of_bytes cs, r).

Definition is_digit (c : ascii) : bool :=
  let n := N_of_ascii c in (48 <=? n) && (n <=? 57).

Fixpoint take_digits (s : string) : list N * string :=
  match s with
  | "" => ([], "")
  | String c rest =>
      if is_digit c then
        let '(ds, r) := take_digits rest in (N_of_ascii c - 48 :: ds, r)
      else ([], s)
  end.

Definition decimal (ds : list N) : N :=
  foldl (λ acc d, acc * 10 + d) 0 ds.

(** The double nearest to [m * 10 ^ e10], ties to even. A negative
    exponent divides with a sticky bit below the quotient. *)
Definition to_double (neg : bool) (m : N) (e10 : Z) : spec_float :=
  let '(mant, e2) :=
    if (0 <=? e10)%Z then (m * 10 ^ Z.to_N e10, 0%Z)
    else
      let den := 10 ^ Z.to_N (- e10) in
      let s := 64 + N.size den in
      let num := N.shiftl m s in
      let sticky := if num mod den =? 0 then 0 else 1 in
      (2 * (num / den) + sticky, (- Z.of_N (s + 1))%Z) in
  match mant with
  | 0 => S754_zero neg
  | Npos p => binary_round 53 1024 neg p e2
  end.

(** A number literal: sign, integer part without leading zeros,
    fraction, exponent. *)
Definition parse_number (s : string) : option (spec_float * string) :=
  let '(neg, s1) :=
    match s with
    | String c r => if Ascii.eqb c "-" then (true, r) else (false, s)
    | "" => (false, s)
    end in
  '(int, s2) ←
    match s1 with
    | String c r =>
        if Ascii.eqb c "0" then Some ([0], r)
        else match take_digits s1 with
             | ([], _) => None
             | (ds, r) => Some (ds, r)
             end
    | "" => None
    end;
  '(frac, s3) ←
    match s2 with
    | String c r =>
        if Ascii.eqb c "." then
          match take_digits r with
          | ([], _) => None
          | (ds, r') => Some (ds, r')
          end
        else Some ([], s2)
    | "" => Some ([], s2)
    end;
  '(exp, s4) ←
    match s3 with
    | String c r =>
        if Ascii.eqb c "e" || Ascii.eqb c "E" then
          let '(eneg, r1) :=
            match r with
            | String d r' =>
                if Ascii.eqb d "-" then (true, r')
                else if Ascii.eqb d "+" then (false, r')
                else (false, r)
            | "" => (false, r)
            end in
          match take_digits r1 with
          | ([], _) => None
          | (ds, r2) =>
              Some (if eneg then (- Z.of_N (decimal ds))%Z
                    else Z.of_N (decimal ds), r2)
          end
        else Some (0%Z, s3)
    | "" => Some (0%Z, s3)
    end;
  Some (to_double neg (decimal (int ++ frac))
                  (exp - Z.of_nat (length frac))%Z, s4).

(** Defining a property: a repeated key keeps the last value. *)
Fixpoint set_prop (k : string) (v : value) (props : list (string * value))
  : list (string * value) :=
  match props with
  | [] => [(k, v)]
  | (k', v') :: rest =>
      if String.eqb k' k then (k, v) :: rest
      else (k', v') :: set_prop k v rest
  end.

Fixpoint parse_value (fuel : nat) (s : string) : option (value * string) :=
  match fuel with
  | O => None
  | S fuel =>
      match skip_ws s with
      | "" => None
      | String c rest as s' =>
          let n := N_of_ascii c in
          if n =? 123 then
            match skip_ws rest with
            | String c' r' =>
                if N_of_ascii c' =? 125 then Some (VObj [], r')
                else parse_members fuel rest []
            | "" => None
            end
          else if n =? 91 then
            match skip_ws rest with
            | String c' r' =>
                if N_of_ascii c' =? 93 then Some (VArr [], r')
                else parse_elements fuel rest []
            | "" => None
            end
          else if n =? 34 then
            '(str, r) ← parse_string rest; Some (VStr str, r)
          else if Ascii.eqb c "t" then
            r ← strip_prefix "true" s'; Some (VBool true, r)
          else if Ascii.eqb c "f" then
            r ← strip_prefix "false" s'; Some (VBool false, r)
          else if Ascii.eqb c "n" then
            r ← strip_prefix "null" s'; Some (VNull, r)
          else
            '(x, r) ← parse_number s'; Some (VNum x, r)
      end
  end
with parse_elements (fuel : nat) (s : string) (acc : list value)
  : option (value * string) :=
  match fuel with
  | O => None
  | S fuel =>
      '(v, r) ← parse_value fuel s;
      match skip_ws r with
      | String c r' =>
          if Ascii.eqb c "," then parse_elements fuel r' (acc ++ [v])%list
          else if N_of_ascii c =? 93 then Some (VArr (acc ++ [v])%list, r')
          else None
      | "" => None
      end
  end
with parse_members (fuel : nat) (s : string) (acc : list (string * value))
  : option (value * string) :=
  match fuel with
  | O => None
  | S fuel =>
      match skip_ws s with
      | String q r0 =>
          if N_of_ascii q =? 34 then
            '(k, r1) ← parse_string r0;
            r2 ← strip_prefix ":" (skip_ws r1);
            '(v, r3) ← parse_value fuel r2;
            match skip_ws r3 with
            | String c r' =>
                if Ascii.eqb c "," then parse_members fuel r' (set_prop k v acc)
                else if N_of_ascii c =? 125 then
                  Some (VObj (set_prop k v acc), r')
                else None
            | "" => None
            end
          else None
      | "" => None
      end
  end.

Definition JSON_parse (text : string) : outcome value :=
  match parse_value (2 * String.length text + 2) text with
  | Some (v, rest) =>
      match skip_ws rest with
      | "" => Ret v
      | _ => Throw (SyntaxError "Unexpected non-whitespace character after JSON")
      end
  | None => Throw (SyntaxError "Unexpected token or end of JSON input")
  end.

Definition platform : Platform :=
  Build_Platform Buffer_from_base64url_toString_utf8 JSON_parse.

End Node.

(** ** The vocabulary of the specification *)

(** The claim [k] of a payload: its value, [undefined] when the payload
    has none. *)
Definition claim (payload : value) (k : string) : value :=
  match get payload k with
  | Ret v => v
  | Throw _ => VUndefined
  end.

(** A claim or field is present when it is not [undefined]. *)
Definition present (v : value) : bool :=
  match v with
  | VUndefined => false
  | _ => true
  end.

Definition nonempty_string (v : value) : Prop :=
  ∃ s : string, v = VStr s ∧ s ≠ "".

(** A claim typed [k?: string]: a string, or missing. *)
Definition optional_string_claim (payload : value) (k : string) : Prop :=
  claim payload k = VUndefined ∨ ∃ s : string, claim payload k = VStr s.

(** The extractor as the specification words it: present and non-empty
    is JavaScript truthiness (on a string claim: there, and not the
    empty string), present is being there. *)
Definition extract_as_specified (payload : value) : option User.t :=
  let email := claim payload "email" in
  if truthy email then
    Some {| User.id := if truthy (claim payload "sub")
                       then claim payload "sub" else email;
            User.email := email;
            User.name := if present (claim payload "name")
                         then claim payload "name" else VUndefined;
            User.avatar_url :=
              if present (claim payload "picture")
              then claim payload "picture"
              else if present (claim payload "avatar_url")
                   then claim payload "avatar_url" else VUndefined |}
  else None.

(** The user the extractor builds once the [email] claim has passed. *)
Definition extracted (payload : value) : User.t :=
  {| User.id := if truthy (claim payload "sub")
                then claim payload "sub" else claim payload "email";
     User.email := claim payload "email";
     User.name := claim payload "name";
     User.avatar_url := if truthy (claim payload "picture")
                        then claim payload "picture"
                        else claim payload "avatar_url" |}.

(** The team name as the specification words it. *)
Definition team_name_as_specified (u : User.t) : value :=
  if present (User.name u) then User.name u else User.email u.

(** ** Sample inputs *)

(** The token of the specification's first scenario; its payload has
    the claims [email = a@b.com] and [sub = u1]. *)
Definition scenario_token : string :=
  "eyJhbGciOiJub25lIn0.eyJlbWFpbCI6ImFAYi5jb20iLCJzdWIiOiJ1MSJ9.sig".

Definition scenario_payload : value :=
  VObj [("email", VStr "a@b.com"); ("sub", VStr "u1")].

(** The same payload behind an empty header and an empty signature. *)
Definition stripped_token : string :=
  ".eyJlbWFpbCI6ImFAYi5jb20iLCJzdWIiOiJ1MSJ9.".

(** A header value that is no token: it has a single segment. *)
Definition malformed_token : string := "not-a-jwt".

(** Three segments, the middle one not the encoding of any JSON text. *)
Definition undecodable_token : string := "a.b.c".

(** A token whose payload has the single claim [sub = u1]. *)
Definition no_email_token : string :=
  "eyJhbGciOiJub25lIn0.eyJzdWIiOiJ1MSJ9.sig".

(** The double 1. *)
Definition one : spec_float := S754_finite false 4503599627370496 (-52).

(** A token whose payload has the single claim [email = 1], a number. *)
Definition numeric_email_token : string :=
  "eyJhbGciOiJub25lIn0.eyJlbWFpbCI6MX0.sig".

(** A payload whose [picture] claim is the empty string. *)
Definition empty_picture_payload : value :=
  VObj [("email", VStr "a@b.com"); ("picture", VStr "");
        ("avatar_url", VStr "https://example.com/a.png")].

(** A session whose user has the empty string for a name. *)
Definition empty_name_session : UserSession.t :=
  UserSession.mk
    (User.mk (VStr "u1") (VStr "a@b.com") (VStr "")
             (VStr "https://example.com/a.png"))
    (Some scenario_token).

(** ** [lib/user-context.tsx] *)

Module Client.

(** The object [{ user: data.user, access_token: data.access_token }]
    the provider stores: both are whatever the response carried. *)
Record Session : Type := mkSession {
  user : value;
  access_token : value
}.

(** One call [posthog.identify(id, { email, name })]. *)
Record Identify : Type := mkIdentify {
  distinctId : value;
  email : value;
  name : value
}.

(** What a run of the effect can change: the two state cells of the
    provider, the console, and the calls made to the analytics client. *)
Record World : Type := mkWorld {
  session : option Session;
  isLoading : bool;
  console : list LogEntry;
  identified : list Identify
}.

(** The state [useState] starts from. *)
Definition initial : World := mkWorld None true [] [].

(** The browser's side of the platform: [fetch], [response.json()], and
    the client [usePostHog()] hands out, which may be missing and whose
    [identify] returns or throws. *)
Class Browser : Type := {
  FetchResponse : Type;
  fetch : string → outcome FetchResponse;
  response_json : FetchResponse → outcome value;
  posthog : option (Identify → outcome unit)
}.

(** A computation changes the world and then returns or throws. *)
Definition K (A : Type) : Type := World → World * outcome A.

Global Instance K_ret : MRet K := λ A a w, (w, Ret a).
Global Instance K_bind : MBind K := λ A B f m w,
  match m w with
  | (w', Ret a) => f a w'
  | (w', Throw e) => (w', Throw e)
  end.

(** [await] of a platform operation, and a property read. *)
Definition await {A} (o : outcome A) : K A := λ w, (w, o).

(** [try { body } catch (error) { handler }]. *)
Definition try_catch {A} (body : K A) (handler : Error → K A) : K A := λ w,
  match body w with
  | (w', Ret a) => (w', Ret a)
  | (w', Throw e) => handler e w'
  end.

(** [try { body } finally { cleanup }]. *)
Definition try_finally {A} (body : K A) (cleanup : K unit) : K A := λ w,
  let '(w', r) := body w in
  match cleanup w' with
  | (w'', Ret _) => (w'', r)
  | (w'', Throw e) => (w'', Throw e)
  end.

Definition setSession (s : Session) : K unit := λ w,
  (mkWorld (Some s) (isLoading w) (console w) (identified w), Ret tt).

Definition setIsLoading (b : bool) : K unit := λ w,
  (mkWorld (session w) b (console w) (identified w), Ret tt).

Definition console_error (msg : string) (e : Error) : K unit := λ w,
  (mkWorld (session w) (isLoading w)
           (console w ++ [mkLog LevelError msg (Some e)])%list (identified w),
   Ret tt).

(** The call reaches the analytics client, which returns or throws. *)
Definition identify (client : Identify → outcome unit) (call : Identify)
  : K unit := λ w,
  (mkWorld (session w) (isLoading w) (console w) (identified w ++ [call])%list,
   client call).

Section UserProvider.
Context {B : Browser}.

(** The effect of [UserProvider]. The names read here ([user],
    [access_token], [id], [email], [name]) are on no prototype of a JSON
    value, so [get] answers for them as it does for the claims. *)
Definition fetchUser : K unit :=
  try_finally
    (try_catch
       (response ← await (fetch "/api/auth/user");
        data ← await (response_json response);
        user ← await (get data "user");
        if truthy user then
          user ← await (get data "user");
          access_token ← await (get data "access_token");
          setSession (mkSession user access_token);;
          match posthog with
          | None => mret tt
          | Some client =>
              user ← await (get data "user");
              id ← await (get user "id");
              user ← await (get data "user");
              email ← await (get user "email");
              user ← await (get data "user");
              name ← await (get user "name");
              identify client (mkIdentify id email name)
          end
        else mret tt)
       (λ error, console_error "[UserContext] Failed to fetch user:" error))
    (setIsLoading false).

End UserProvider.

(** A context value shows a world when it is what the provider renders
    from it: the same loading flag, and the stored session under the
    type [UserSession] it is declared with. *)
Definition shows (ctx : UserContextValue) (w : World) : Prop :=
  ctx_isLoading ctx = isLoading w ∧
  match ctx_session ctx, session w with
  | None, None => True
  | Some s, Some c =>
      User.id (UserSession.user s) = claim (user c) "id" ∧
      User.email (UserSession.user s) = claim (user c) "email" ∧
      User.name (UserSession.user s) = claim (user c) "name" ∧
      User.avatar_url (UserSession.user s) = claim (user c) "avatar_url" ∧
      optional_string (UserSession.access_token s) = access_token c
  | _, _ => False
  end.

End Client.

(** ** Segments *)

(** [pieces.join(sep)]. *)
Fixpoint join (sep : string) (pieces : list string) : string :=
  match pieces with
  | [] => ""
  | [piece] => piece
  | piece :: rest => piece ++ sep ++ join sep rest
  end.

(** Whether a character occurs in a string. *)
Fixpoint occurs (c : ascii) (s : string) : bool :=
  match s with
  | "" => false
  | String c' rest => Ascii.eqb c' c || occurs c rest
  end.

(** The lines the resolver ends on when it falls back. *)
Definition MOCK_LINE : LogEntry :=
  mkLog LevelLog
    "[Auth] Using mock user (MOCK_AUTH enabled or development mode)" None.

Definition NO_USER_LINE : LogEntry :=
  mkLog LevelLog
    "[Auth] No user - X-Forwarded-User header missing and mock auth disabled"
    None.

(** ** The decoder's claim, word by word *)




(** A value that is a string. *)
Definition string_value (v : value) : Prop := ∃ s : string, v = VStr s.



(** A token whose payload has the single claim [sub = 5], a number. *)
Definition numeric_sub_token : string := "h.eyJzdWIiOjV9.s".

(** ** Sample browsers *)

(** A browser whose request gets the given body, with the given
    analytics client. *)
Definition served (data : value)
    (client : option (Client.Identify → outcome unit)) : Client.Browser :=
  Client.Build_Browser value (λ _, Ret data) Ret client.

(** A browser without a network and without analytics. *)
Definition offline : Client.Browser :=
  Client.Build_Browser value (λ _, Throw (TypeError "Failed to fetch")) Ret None.

(** An analytics client that accepts every call, and one that throws. *)
Definition accepting : Client.Identify → outcome unit := λ _, Ret tt.
Definition failing : Client.Identify → outcome unit :=
  λ _, Throw (TypeError "posthog is not initialised").

(** The body the endpoint sends for the first scenario, as the browser
    reads it. *)
Definition scenario_body : value :=
  VObj [("user", VObj [("id", VStr "u1"); ("email", VStr "a@b.com")]);
        ("access_token", VStr scenario_token)].

(** ** Proof steps *)

(** Case analysis on the number of segments of a token: none, one, two,
    three, or more. *)
Ltac by_segments token :=
  destruct (split "." token) as [| ? [| ? [| ? [| ? ?]]]].

(** Running the effect of the provider: its monad unfolded, the
    property reads left standing. *)
Ltac run_store :=
  unfold Client.fetchUser, Client.try_finally, Client.try_catch, mbind,
    Client.K_bind, Client.await, mret, Client.K_ret, Client.setSession,
    Client.setIsLoading, Client.console_error, Client.identify;
  cbn -[get truthy claim].

(** * Properties *)

(** ** Running computations *)

Lemma result_lift {A} (o : outcome A) : result (lift o) = o.
Proof. reflexivity. Qed.

Lemma result_bind {A B} (m : M A) (f : A → M B) :
  result (m ≫= f) =
  match result m with
  | Ret a => result (f a)
  | Throw e => Throw e
  end.
Proof.
  destruct m as [l [a | e]]; simpl; [| reflexivity].
  unfold mbind, M_bind. destruct (f a); reflexivity.
Qed.

Lemma result_try_catch {A} (body : M A) (handler : Error → M A) :
  result (try_catch body handler) =
  match result body with
  | Ret a => Ret a
  | Throw e => result (handler e)
  end.
Proof.
  destruct body as [l [a | e]]; simpl; [reflexivity |].
  destruct (handler e); reflexivity.
Qed.

Lemma M_eq {A} (m : M A) : m = (logs m, result m).
Proof. destruct m; reflexivity. Qed.

(** ** The token decoder *)

Section DecoderProperties.
Context {P : Platform}.

(** What the [try] block of [decodeJWT] computes from the segments. *)
Lemma decodeJWT_result (token : string) :
  result (decodeJWT token) =
  Ret match split "." token with
      | [_; payload; _] =>
          match Buffer_from_base64url_toString_utf8 payload ≫= JSON_parse with
          | Ret v => v
          | Throw _ => VNull
          end
      | _ => VNull
      end.
Proof.
  unfold decodeJWT. rewrite result_try_catch.
  by_segments token; try reflexivity.
  cbn [length]. rewrite bool_decide_eq_false_2 by (intros H; apply H; reflexivity).
  cbn [lookup list_lookup]. rewrite result_bind, result_lift.
  destruct (Buffer_from_base64url_toString_utf8 _) as [text | e]; cbn; [| reflexivity].
  destruct (JSON_parse text); reflexivity.
Qed.


(** The decoder writes to the console in its [catch] block only. *)
Lemma decodeJWT_logs (token : string) :
  logs (decodeJWT token) =
  match split "." token with
  | [_; payload; _] =>
      match Buffer_from_base64url_toString_utf8 payload ≫= JSON_parse with
      | Ret _ => []
      | Throw e => [mkLog LevelError "[JWT] Failed to decode token:" (Some e)]
      end
  | _ => []
  end.
Proof.
  unfold decodeJWT.
  by_segments token; try reflexivity.
  cbn [length]. rewrite bool_decide_eq_false_2 by (intros H; apply H; reflexivity).
  cbn [lookup list_lookup].
  destruct (Buffer_from_base64url_toString_utf8 _) as [text | e]; cbn; [| reflexivity].
  destruct (JSON_parse text); reflexivity.
Qed.

(** C10. The decoder looks at the middle segment only: two tokens of
    three segments each with the same middle segment decode alike,
    whatever their header and signature segments are. *)
Theorem decodeJWT_middle_segment_only
    (token1 token2 header1 header2 payload signature1 signature2 : string) :
  split "." token1 = [header1; payload; signature1] →
  split "." token2 = [header2; payload; signature2] →
  decodeJWT token1 = decodeJWT token2.
Proof.
  intros H1 H2.
  rewrite (M_eq (decodeJWT token1)), (M_eq (decodeJWT token2)).
  rewrite !decodeJWT_result, !decodeJWT_logs, H1, H2. reflexivity.
Qed.

End DecoderProperties.

(** ** The claim extractor *)

Lemma get_claim (payload : value) (k : string) :
  payload ≠ VUndefined → payload ≠ VNull →
  get payload k = Ret (claim payload k).
Proof.
  intros Hu Hn. unfold claim.
  destruct payload; try reflexivity; congruence.
Qed.

Lemma truthy_string_claim (payload : value) (k : string) :
  optional_string_claim payload k →
  truthy (claim payload k) = true ↔ nonempty_string (claim payload k).
Proof.
  intros [-> | [s ->]]; cbn.
  - split; [discriminate | intros (s & Hs & _); discriminate].
  - rewrite negb_true_iff, String.eqb_neq. split.
    + intros Hs. exists s. auto.
    + intros (s' & [= <-] & Hs). exact Hs.
Qed.

Lemma extractUserFromJWT_run (payload : value) :
  payload ≠ VUndefined → payload ≠ VNull →
  extractUserFromJWT payload =
  if truthy (claim payload "email") then ([], Ret (Some (extracted payload)))
  else ([mkLog LevelWarn "[JWT] No email claim in token" None], Ret None).
Proof.
  intros Hu Hn. unfold extractUserFromJWT, or_else, extracted.
  rewrite !(get_claim payload) by assumption. cbn.
  destruct (truthy (claim payload "email")); cbn; [| reflexivity].
  destruct (truthy (claim payload "sub")); cbn;
    destruct (truthy (claim payload "picture")); reflexivity.
Qed.

Lemma extractUserFromJWT_throws (payload : value) :
  payload = VUndefined ∨ payload = VNull →
  ∃ e : Error, result (extractUserFromJWT payload) = Throw e.
Proof. intros [-> | ->]; eexists; reflexivity. Qed.

(** Only an object carries an [email] claim. *)
Lemma extractUserFromJWT_Some_truthy (payload : value) (u : User.t) :
  result (extractUserFromJWT payload) = Ret (Some u) →
  truthy payload = true ∧ extractUserFromJWT payload = ([], Ret (Some u)).
Proof.
  intros H.
  assert (payload ≠ VUndefined ∧ payload ≠ VNull) as [Hu Hn].
  { split; intros ->; discriminate. }
  rewrite extractUserFromJWT_run in H |- * by assumption.
  destruct (truthy (claim payload "email")) eqn:He; [| discriminate].
  split; [| cbn in H; congruence].
  destruct payload; try reflexivity; try discriminate; congruence.
Qed.

(** C6, as the code has it. For every payload that is not [null] or
    [undefined], the extractor returns a user exactly when the [email]
    claim is present and non-empty (truthy), and [null] otherwise; the
    user's [id] is the [sub] claim when that is present and non-empty,
    else the [email] claim; its [name] is the [name] claim, absent when
    the payload has none; its [avatar_url] is the [picture] claim when
    that is present and non-empty, else the [avatar_url] claim, absent
    when the payload has none. *)
Theorem extractUserFromJWT_spec (payload : value) :
  payload ≠ VUndefined → payload ≠ VNull →
  ((∃ u : User.t, result (extractUserFromJWT payload) = Ret (Some u)) ↔
   truthy (claim payload "email") = true) ∧
  (truthy (claim payload "email") = false →
   result (extractUserFromJWT payload) = Ret None) ∧
  (∀ u : User.t,
     result (extractUserFromJWT payload) = Ret (Some u) →
     User.id u = (if truthy (claim payload "sub")
                  then claim payload "sub" else claim payload "email") ∧
     User.email u = claim payload "email" ∧
     User.name u = claim payload "name" ∧
     User.avatar_url u = (if truthy (claim payload "picture")
                          then claim payload "picture"
                          else claim payload "avatar_url")).
Proof.
  intros Hu Hn. rewrite extractUserFromJWT_run by assumption.
  destruct (truthy (claim payload "email")); cbn.
  - split; [split; eauto |]. split; [discriminate |].
    intros u [= <-]. cbn. auto.
  - split; [split; [intros [u Hu']; discriminate | discriminate] |].
    split; [reflexivity |]. intros u; discriminate.
Qed.

(** The extractor on the payload of the first scenario, whose claims are
    all strings. *)
Lemma extractUserFromJWT_spec_witness :
  ∃ u : User.t,
    result (extractUserFromJWT scenario_payload) = Ret (Some u) ∧
    User.id u = VStr "u1" ∧ User.email u = VStr "a@b.com" ∧
    User.name u = VUndefined ∧ User.avatar_url u = VUndefined.
Proof.
  destruct (extractUserFromJWT_spec scenario_payload) as (Hiff & _ & Hfields);
    [discriminate | discriminate |].
  destruct (proj2 Hiff eq_refl) as [u Hu].
  exists u. split; [exact Hu | exact (Hfields u Hu)].
Defined.

(** C6, as the specification words it, fails: a [picture] claim that is
    present but empty is passed over for the [avatar_url] claim. *)
Lemma extractUserFromJWT_empty_picture :
  result (extractUserFromJWT empty_picture_payload) =
  Ret (Some (User.mk (VStr "a@b.com") (VStr "a@b.com") VUndefined
                     (VStr "https://example.com/a.png"))) ∧
  extract_as_specified empty_picture_payload =
  Some (User.mk (VStr "a@b.com") (VStr "a@b.com") VUndefined (VStr "")) ∧
  result (extractUserFromJWT empty_picture_payload) ≠
  Ret (extract_as_specified empty_picture_payload).
Proof. repeat split. discriminate. Qed.

(** ** The session resolver *)

Section ResolverProperties.
Context {P : Platform}.

(** A decoded payload other than [null] came out of the [try] block, so
    nothing was written to the console. *)
Lemma decodeJWT_quiet (token : string) (payload : value) :
  result (decodeJWT token) = Ret payload → payload ≠ VNull →
  decodeJWT token = ([], Ret payload).
Proof.
  intros Hres Hnull. rewrite (M_eq (decodeJWT token)), Hres. f_equal.
  rewrite decodeJWT_result in Hres. rewrite decodeJWT_logs.
  by_segments token; try reflexivity.
  destruct (Buffer_from_base64url_toString_utf8 _ ≫= JSON_parse); [reflexivity |].
  congruence.
Qed.

Lemma fromHeader_absent (forwardedUser : option string) :
  forwardedUser = None ∨ forwardedUser = Some "" →
  fromHeader forwardedUser = ([], Ret None).
Proof. intros [-> | ->]; reflexivity. Qed.

Lemma fromHeader_present (token : string) :
  token ≠ "" →
  result (fromHeader (Some token)) =
  match result (decodeJWT token) with
  | Ret payload =>
      if truthy payload then
        match result (extractUserFromJWT payload) with
        | Ret (Some user) => Ret (Some (UserSession.mk user (Some token)))
        | Ret None => Ret None
        | Throw e => Throw e
        end
      else Ret None
  | Throw e => Throw e
  end.
Proof.
  intros Htoken. unfold fromHeader.
  rewrite (proj2 (String.eqb_neq token "")) by assumption.
  rewrite result_bind. destruct (result (decodeJWT token)) as [payload | e];
    [| reflexivity].
  destruct (truthy payload); cbn [negb]; [| reflexivity].
  rewrite result_bind.
  destruct (result (extractUserFromJWT payload)) as [[user |] | e]; reflexivity.
Qed.

(** The [if (forwardedUser)] block never throws, and a session that
    leaves it was extracted from a truthy payload of the header. *)
Lemma fromHeader_returns (forwardedUser : option string) :
  ∃ r : option UserSession.t,
    result (fromHeader forwardedUser) = Ret r ∧
    ∀ session : UserSession.t, r = Some session →
      ∃ (token : string) (payload : value),
        forwardedUser = Some token ∧ token ≠ "" ∧
        result (decodeJWT token) = Ret payload ∧
        truthy payload = true ∧
        truthy (claim payload "email") = true ∧
        session = UserSession.mk (extracted payload) (Some token).
Proof.
  destruct forwardedUser as [token |]; [| exists None; split; [reflexivity | discriminate]].
  destruct (decide (token = "")) as [-> | Htoken];
    [exists None; split; [reflexivity | discriminate] |].
  rewrite fromHeader_present by assumption.
  pose proof (decodeJWT_result token) as Hdec. revert Hdec.
  generalize (match split "." token with
              | [_; payload; _] =>
                  match Buffer_from_base64url_toString_utf8 payload ≫= JSON_parse with
                  | Ret v => v
                  | Throw _ => VNull
                  end
              | _ => VNull
              end).
  intros payload Hdec. rewrite Hdec.
  destruct (truthy payload) eqn:Htruthy;
    [| exists None; split; [reflexivity | discriminate]].
  rewrite extractUserFromJWT_run by (intros ->; discriminate).
  destruct (truthy (claim payload "email")) eqn:Hemail; cbn;
    [| exists None; split; [reflexivity | discriminate]].
  eexists. split; [reflexivity |].
  intros session [= <-]. exists token, payload. auto 10.
Qed.

Lemma getUserFromHeaders_result (env : Env) (headersList : Headers) :
  result (getUserFromHeaders env headersList) =
  match result (fromHeader (headersList !! AUTH_HEADER)) with
  | Ret (Some session) => Ret (Some session)
  | Ret None =>
      Ret (if isMockAuthEnabled env
           then Some (UserSession.mk MOCK_USER None) else None)
  | Throw e => Throw e
  end.
Proof.
  unfold getUserFromHeaders. cbv zeta. rewrite result_bind.
  destruct (result (fromHeader (headersList !! AUTH_HEADER))) as [[session |] | e];
    try reflexivity.
  destruct (isMockAuthEnabled env); reflexivity.
Qed.

(** The resolver never throws. *)
Lemma getUserFromHeaders_returns (env : Env) (headersList : Headers) :
  ∃ r : option UserSession.t,
    result (getUserFromHeaders env headersList) = Ret r.
Proof.
  rewrite getUserFromHeaders_result.
  destruct (fromHeader_returns (headersList !! AUTH_HEADER)) as (r & -> & _).
  destruct r; eauto.
Qed.

Lemma isMockAuthEnabled_iff (env : Env) :
  isMockAuthEnabled env = true ↔
  env !! "MOCK_AUTH" = Some "true" ∨ env !! "NODE_ENV" = Some "development".
Proof.
  unfold isMockAuthEnabled.
  destruct (bool_decide_reflect (env !! "MOCK_AUTH" = Some "true")); [tauto |].
  destruct (bool_decide_reflect (env !! "NODE_ENV" = Some "development"));
    [tauto |].
  split; [discriminate | tauto].
Qed.

(** C1. When the trust header is present and non-empty, decodes to a
    payload and the extractor yields a user from it, the resolver returns
    the session of that user with the raw header string as
    [access_token], whatever [MOCK_AUTH] and [NODE_ENV] are; it writes
    nothing to the console on this path, the mock lines included. (A
    payload the extractor yields a user from is not [null].) *)
Theorem header_identity_wins
    (env : Env) (headersList : Headers) (token : string)
    (payload : value) (user : User.t) :
  headersList !! AUTH_HEADER = Some token →
  token ≠ "" →
  result (decodeJWT token) = Ret payload →
  result (extractUserFromJWT payload) = Ret (Some user) →
  getUserFromHeaders env headersList =
  ([], Ret (Some (UserSession.mk user (Some token)))).
Proof.
  intros Hget Htoken Hdec Hext.
  destruct (extractUserFromJWT_Some_truthy payload user Hext) as [Htruthy Hrun].
  assert (payload ≠ VNull) as Hnull by (intros ->; discriminate).
  unfold getUserFromHeaders, fromHeader. rewrite Hget.
  rewrite (proj2 (String.eqb_neq token "")) by assumption.
  rewrite (decodeJWT_quiet token payload Hdec Hnull). cbn.
  rewrite Htruthy. cbn. rewrite Hrun. reflexivity.
Qed.

(** C2. When the trust header is present but does not decode, or
    decodes to a payload the extractor gets no user from, and mock
    authentication is enabled, the resolver returns the mock user's
    session: the failure falls through to the fallback. *)
Theorem invalid_header_falls_back_to_mock
    (env : Env) (headersList : Headers) (token : string) :
  headersList !! AUTH_HEADER = Some token →
  (result (decodeJWT token) = Ret VNull ∨
   ∃ payload : value,
     result (decodeJWT token) = Ret payload ∧ payload ≠ VNull ∧
     result (extractUserFromJWT payload) = Ret None) →
  isMockAuthEnabled env = true →
  result (getUserFromHeaders env headersList) =
  Ret (Some (UserSession.mk MOCK_USER None)).
Proof.
  intros Hget Hfail Hmock. rewrite getUserFromHeaders_result, Hget, Hmock.
  destruct (decide (token = "")) as [-> | Htoken]; [reflexivity |].
  rewrite fromHeader_present by assumption.
  destruct Hfail as [-> | (payload & -> & _ & Hext)]; [reflexivity |].
  rewrite Hext. destruct (truthy payload); reflexivity.
Qed.

(** C3. Mock authentication is enabled exactly when [MOCK_AUTH] is the
    string [true] or [NODE_ENV] is the string [development]; with no
    trust header, or an empty one, and neither of the two set so, the
    resolver returns no session. *)
Theorem no_header_no_mock_no_session (env : Env) (headersList : Headers) :
  headersList !! AUTH_HEADER = None ∨ headersList !! AUTH_HEADER = Some "" →
  env !! "MOCK_AUTH" ≠ Some "true" →
  env !! "NODE_ENV" ≠ Some "development" →
  result (getUserFromHeaders env headersList) = Ret None ∧
  ∀ env' : Env,
    isMockAuthEnabled env' = true ↔
    env' !! "MOCK_AUTH" = Some "true" ∨ env' !! "NODE_ENV" = Some "development".
Proof.
  intros Hheader Hflag Hmode. split; [| apply isMockAuthEnabled_iff].
  rewrite getUserFromHeaders_result, (fromHeader_absent _ Hheader). cbn.
  destruct (isMockAuthEnabled env) eqn:Hmock; [| reflexivity].
  apply isMockAuthEnabled_iff in Hmock. tauto.
Qed.

(** C4. With no trust header, or an empty one, and mock authentication
    enabled, the resolver returns the session of the fixed mock user,
    without an [access_token]. *)
Theorem no_header_mock_session (env : Env) (headersList : Headers) :
  headersList !! AUTH_HEADER = None ∨ headersList !! AUTH_HEADER = Some "" →
  isMockAuthEnabled env = true →
  result (getUserFromHeaders env headersList) =
  Ret (Some {| UserSession.user :=
                 {| User.id := VStr "dev-user-001";
                    User.email := VStr "developer@localhost.dev";
                    User.name := VStr "Local Developer";
                    User.avatar_url := VUndefined |};
               UserSession.access_token := None |}).
Proof.
  intros Hheader Hmock.
  rewrite getUserFromHeaders_result, (fromHeader_absent _ Hheader). cbn.
  rewrite Hmock. reflexivity.
Qed.

(** A session the resolver returns is the mock one or was extracted
    from a truthy payload with a truthy [email] claim. *)
Lemma getUserFromHeaders_session
    (env : Env) (headersList : Headers) (session : UserSession.t) :
  result (getUserFromHeaders env headersList) = Ret (Some session) →
  session = UserSession.mk MOCK_USER None ∨
  ∃ (token : string) (payload : value),
    headersList !! AUTH_HEADER = Some token ∧
    result (decodeJWT token) = Ret payload ∧
    truthy payload = true ∧
    truthy (claim payload "email") = true ∧
    session = UserSession.mk (extracted payload) (Some token).
Proof.
  rewrite getUserFromHeaders_result.
  destruct (fromHeader_returns (headersList !! AUTH_HEADER)) as (r & Hr & Hfrom).
  rewrite Hr. destruct r as [s |].
  - intros [= <-]. right.
    destruct (Hfrom s eq_refl) as (token & payload & ? & ? & ? & ? & ? & ?).
    exists token, payload. auto.
  - destruct (isMockAuthEnabled env); [| discriminate].
    intros [= <-]. left. reflexivity.
Qed.

(** C7, as the code has it. The resolver always returns, a session or
    none, and every session it returns has a user whose [id] and [email]
    are truthy: not missing, not [null], not empty. The mock user's are
    non-empty strings. In a session from the header, which carries the
    header as [access_token], the [email] is a non-empty string exactly
    when the [email] claim of the decoded payload is a string, and the
    [id] exactly when the [sub] claim is a non-empty string, or is falsy
    while the [email] claim is a string. *)
Theorem session_user_populated (env : Env) (headersList : Headers) :
  (∃ r : option UserSession.t,
     result (getUserFromHeaders env headersList) = Ret r) ∧
  ∀ session : UserSession.t,
    result (getUserFromHeaders env headersList) = Ret (Some session) →
    truthy (User.id (UserSession.user session)) = true ∧
    truthy (User.email (UserSession.user session)) = true ∧
    match UserSession.access_token session with
    | None =>
        nonempty_string (User.id (UserSession.user session)) ∧
        nonempty_string (User.email (UserSession.user session))
    | Some token =>
        ∀ payload : value,
          result (decodeJWT token) = Ret payload →
          (nonempty_string (User.email (UserSession.user session)) ↔
           string_value (claim payload "email")) ∧
          (nonempty_string (User.id (UserSession.user session)) ↔
           nonempty_string (claim payload "sub") ∨
           truthy (claim payload "sub") = false ∧
           string_value (claim payload "email"))
    end.
Proof.
  split; [apply getUserFromHeaders_returns |].
  intros session Hsession.
  destruct (getUserFromHeaders_session env headersList session Hsession)
    as [-> | (token & payload & Hget & Hdec & _ & Hemail & ->)]; cbn.
  - split; [reflexivity |]. split; [reflexivity |].
    split; eexists; (split; [reflexivity | discriminate]).
  - assert (∀ v : value, truthy v = true →
              (nonempty_string v ↔ string_value v)) as Hstring.
    { intros v Hv. split; [intros (s & -> & _); exists s; reflexivity |].
      intros [s ->]. exists s. split; [reflexivity |].
      intros ->. discriminate. }
    assert (∀ v : value, nonempty_string v → truthy v = true) as Htruthy.
    { intros v (s & -> & Hs). cbn.
      rewrite negb_true_iff. apply String.eqb_neq. exact Hs. }
    destruct (truthy (claim payload "sub")) eqn:Hsub;
      (split; [assumption |]); (split; [assumption |]);
      intros payload' Hdec'; assert (payload' = payload) as -> by congruence;
      (split; [apply Hstring; assumption |]).
    + split; [intros Hs; left; exact Hs |].
      intros [Hs | [Hfalse _]]; [exact Hs | congruence].
    + rewrite (Hstring _ Hemail). split; [intros Hs; right; auto |].
      intros [Hs | [_ Hs]]; [| exact Hs].
      apply Htruthy in Hs. congruence.
Qed.

End ResolverProperties.

(** The first scenario of the specification, with and without mock
    authentication switched on. *)
Lemma header_identity_wins_witness :
  let headersList : Headers := {[ AUTH_HEADER := scenario_token ]} in
  let session :=
    UserSession.mk (User.mk (VStr "u1") (VStr "a@b.com") VUndefined VUndefined)
                   (Some scenario_token) in
  @getUserFromHeaders Node.platform ∅ headersList = ([], Ret (Some session)) ∧
  @getUserFromHeaders Node.platform {[ "MOCK_AUTH" := "true" ]} headersList =
  ([], Ret (Some session)).
Proof.
  intros headersList session.
  split;
    apply (@header_identity_wins Node.platform _ headersList scenario_token
             scenario_payload);
    solve [ vm_compute; reflexivity | discriminate ].
Defined.

(** A header that is no token, and one whose payload has no [email]
    claim, with [MOCK_AUTH] set. *)
Lemma invalid_header_falls_back_to_mock_witness :
  let env : Env := {[ "MOCK_AUTH" := "true" ]} in
  result (@getUserFromHeaders Node.platform env
            {[ AUTH_HEADER := malformed_token ]}) =
  Ret (Some (UserSession.mk MOCK_USER None)) ∧
  result (@getUserFromHeaders Node.platform env
            {[ AUTH_HEADER := no_email_token ]}) =
  Ret (Some (UserSession.mk MOCK_USER None)).
Proof.
  intros env. split.
  - apply (@invalid_header_falls_back_to_mock Node.platform env _ malformed_token).
    + vm_compute; reflexivity.
    + left. vm_compute; reflexivity.
    + vm_compute; reflexivity.
  - apply (@invalid_header_falls_back_to_mock Node.platform env _ no_email_token).
    + vm_compute; reflexivity.
    + right. exists (VObj [("sub", VStr "u1")]).
      split; [vm_compute; reflexivity |].
      split; [discriminate | vm_compute; reflexivity].
    + vm_compute; reflexivity.
Defined.

(** A production environment and a request without headers. *)
Lemma no_header_no_mock_no_session_witness :
  result (@getUserFromHeaders Node.platform {[ "NODE_ENV" := "production" ]} ∅) =
  Ret None.
Proof.
  apply (@no_header_no_mock_no_session Node.platform
           {[ "NODE_ENV" := "production" ]} ∅).
  - left. vm_compute; reflexivity.
  - vm_compute; discriminate.
  - vm_compute; discriminate.
Defined.

(** A development environment and a request whose trust header is empty. *)
Lemma no_header_mock_session_witness :
  result (@getUserFromHeaders Node.platform {[ "NODE_ENV" := "development" ]}
            {[ AUTH_HEADER := "" ]}) =
  Ret (Some (UserSession.mk MOCK_USER None)).
Proof.
  apply (@no_header_mock_session Node.platform
           {[ "NODE_ENV" := "development" ]} {[ AUTH_HEADER := "" ]}).
  - right. vm_compute; reflexivity.
  - vm_compute; reflexivity.
Defined.

(** The session of the first scenario, whose payload has string
    claims, and the mock session returned behind a header whose [sub]
    claim is a number. *)
Lemma session_user_populated_witness :
  (nonempty_string (VStr "u1") ∧ nonempty_string (VStr "a@b.com")) ∧
  (nonempty_string (VStr "dev-user-001") ∧
   nonempty_string (VStr "developer@localhost.dev")).
Proof.
  split.
  - pose (headersList := ({[ AUTH_HEADER := scenario_token ]} : Headers)).
    pose (session :=
            UserSession.mk (extracted scenario_payload) (Some scenario_token)).
    destruct (proj2 (@session_user_populated Node.platform ∅ headersList)
                session) as (_ & _ & Hstrings); [vm_compute; reflexivity |].
    destruct (Hstrings scenario_payload) as [Hemail Hid];
      [vm_compute; reflexivity |].
    split.
    + apply Hid. left. exists "u1". split; [reflexivity | discriminate].
    + apply Hemail. exists "a@b.com". reflexivity.
  - pose (headersList := ({[ AUTH_HEADER := numeric_sub_token ]} : Headers)).
    destruct (proj2 (@session_user_populated Node.platform
                       {[ "MOCK_AUTH" := "true" ]} headersList)
                (UserSession.mk MOCK_USER None)) as (_ & _ & Hmock);
      [vm_compute; reflexivity |].
    exact Hmock.
Defined.

(** C7, as the specification words it, fails: a token whose [email]
    claim is the number 1 resolves to a session whose user has that
    number for [id] and [email], which is no string. *)
Lemma numeric_email_session :
  result (@getUserFromHeaders Node.platform ∅
            {[ AUTH_HEADER := numeric_email_token ]}) =
  Ret (Some (UserSession.mk
               (User.mk (VNum one) (VNum one) VUndefined VUndefined)
               (Some numeric_email_token))) ∧
  ¬ nonempty_string (VNum one).
Proof.
  split; [vm_compute; reflexivity |].
  intros (s & Hs & _). discriminate.
Qed.



(** The token of the first scenario with its header and signature
    emptied decodes as before. *)
Lemma decodeJWT_middle_segment_only_witness :
  @decodeJWT Node.platform scenario_token =
  @decodeJWT Node.platform stripped_token.
Proof.
  apply (@decodeJWT_middle_segment_only Node.platform
           scenario_token stripped_token
           "eyJhbGciOiJub25lIn0" "" "eyJlbWFpbCI6ImFAYi5jb20iLCJzdWIiOiJ1MSJ9"
           "sig" "");
    vm_compute; reflexivity.
Defined.

(** ** The session endpoint *)

Section RouteProperties.
Context {P : Platform}.

(** C8. The endpoint always answers, with status 200: the body is
    [{ user: null }] when the resolver yields no session, and the
    session's user and [access_token] when it yields one. *)
Theorem GET_always_200 (env : Env) (headersList : Headers) :
  ∃ response : Response,
    result (GET env headersList) = Ret response ∧
    status response = 200%Z ∧
    (result (getUserFromHeaders env headersList) = Ret None →
     body response = VObj [("user", VNull)]) ∧
    (∀ s : UserSession.t,
       result (getUserFromHeaders env headersList) = Ret (Some s) →
       body response =
       VObj [("user", User_object (UserSession.user s));
             ("access_token", optional_string (UserSession.access_token s))]).
Proof.
  unfold GET. rewrite result_bind.
  destruct (getUserFromHeaders_returns env headersList) as [[s |] ->].
  - eexists. split; [reflexivity |]. split; [reflexivity |].
    split; [discriminate |]. intros s' [= <-]. reflexivity.
  - eexists. split; [reflexivity |]. split; [reflexivity |].
    split; [reflexivity |]. discriminate.
Qed.

End RouteProperties.

(** ** The compatibility adapter *)

(** C9, as the code has it. The adapted session carries the user's
    [avatar_url] under [user_metadata] and the session's [access_token];
    the team has the user's [id] and [email], for a name the user's name
    when that is present and non-empty (truthy) and the user's email
    otherwise, and the tier [default]. *)
Theorem useAuth_projection (s : UserSession.t) (loading : bool) :
  ∃ (compat : Compat.session) (team : UserTeam.t),
    session (useAuth {| ctx_session := Some s; ctx_isLoading := loading |}) =
    Some compat ∧
    userTeam (useAuth {| ctx_session := Some s; ctx_isLoading := loading |}) =
    Some team ∧
    Compat.avatar_url (Compat.metadata (Compat.session_user compat)) =
    User.avatar_url (UserSession.user s) ∧
    Compat.access_token compat = UserSession.access_token s ∧
    UserTeam.id team = User.id (UserSession.user s) ∧
    UserTeam.email team = User.email (UserSession.user s) ∧
    UserTeam.name team =
    (if truthy (User.name (UserSession.user s))
     then User.name (UserSession.user s)
     else User.email (UserSession.user s)) ∧
    UserTeam.tier team = "default".
Proof.
  do 2 eexists. split; [reflexivity |]. split; [reflexivity |].
  cbn. repeat split.
Qed.

(** C9, as the specification words it, fails: a user whose name is
    present but empty gets the email for a team name. *)
Lemma useAuth_empty_name :
  userTeam (useAuth {| ctx_session := Some empty_name_session;
                       ctx_isLoading := false |}) =
  Some (UserTeam.mk (VStr "u1") (VStr "a@b.com") (VStr "a@b.com") "default") ∧
  team_name_as_specified (UserSession.user empty_name_session) = VStr "" ∧
  VStr "a@b.com" ≠
  team_name_as_specified (UserSession.user empty_name_session).
Proof. repeat split. discriminate. Qed.

(** ** The scenarios of the specification *)

(** Scenario 1: the header carries the sample token. *)
Example scenario_header :
  result (@GET Node.platform ∅ {[ AUTH_HEADER := scenario_token ]}) =
  Ret (mkResponse 200
         (VObj [("user", VObj [("id", VStr "u1"); ("email", VStr "a@b.com");
                               ("name", VUndefined);
                               ("avatar_url", VUndefined)]);
                ("access_token", VStr scenario_token)])).
Proof. vm_compute. reflexivity. Qed.

(** Scenario 2: no header, [MOCK_AUTH=true]. *)
Example scenario_mock :
  result (@getUserFromHeaders Node.platform {[ "MOCK_AUTH" := "true" ]} ∅) =
  Ret (Some (UserSession.mk
               (User.mk (VStr "dev-user-001") (VStr "developer@localhost.dev")
                        (VStr "Local Developer") VUndefined)
               None)).
Proof. vm_compute. reflexivity. Qed.

(** Scenario 3: no header, mock authentication disabled. *)
Example scenario_anonymous :
  result (@GET Node.platform ∅ ∅) =
  Ret (mkResponse 200 (VObj [("user", VNull)])).
Proof. vm_compute. reflexivity. Qed.

(** ** More on the token decoder *)

Lemma split_not_nil (sep : ascii) (s : string) : split sep s ≠ [].
Proof.
  destruct s as [| c rest]; cbn; [discriminate |].
  destruct (Ascii.eqb c sep); [discriminate |].
  destruct (split sep rest); discriminate.
Qed.

(** Joining the pieces of a string with the separator gives it back. *)
Lemma join_split (sep : ascii) (s : string) :
  join (String sep "") (split sep s) = s.
Proof.
  induction s as [| c rest IH]; cbn; [reflexivity |].
  destruct (Ascii.eqb_spec c sep) as [-> | Hc].
  - pose proof (split_not_nil sep rest) as Hne.
    destruct (split sep rest) as [| piece pieces]; [congruence |].
    cbn in IH |- *. rewrite IH. reflexivity.
  - destruct (split sep rest) as [| piece pieces] eqn:Hs;
      [destruct (split_not_nil sep rest Hs) |].
    destruct pieces as [| piece' pieces]; cbn in IH |- *; rewrite <- IH;
      reflexivity.
Qed.

(** No piece holds the separator. *)
Lemma split_pieces (sep : ascii) (s : string) :
  Forall (λ piece, occurs sep piece = false) (split sep s).
Proof.
  induction s as [| c rest IH]; cbn; [repeat constructor |].
  destruct (Ascii.eqb_spec c sep) as [-> | Hc].
  - constructor; [reflexivity | exact IH].
  - destruct (split sep rest) as [| piece pieces]; [repeat constructor |].
    + cbn. rewrite (proj2 (Ascii.eqb_neq c sep) Hc). reflexivity.
    + inversion IH as [| ? ? Hpiece Hpieces]; subst.
      constructor; [| exact Hpieces].
      cbn. rewrite (proj2 (Ascii.eqb_neq c sep) Hc). exact Hpiece.
Qed.

Section MoreOnDecoder.
Context {P : Platform}.

(** X1. A payload the decoder returns has a known origin: the token is
    three dot-free segments joined by two dots, the middle one decoded
    to a text, and the payload is what [JSON.parse] made of that text. *)
Theorem decodeJWT_payload_origin (token : string) (v : value) :
  result (decodeJWT token) = Ret v → v ≠ VNull →
  ∃ header payload signature text : string,
    token = header ++ "." ++ payload ++ "." ++ signature ∧
    occurs "." header = false ∧ occurs "." payload = false ∧
    occurs "." signature = false ∧
    Buffer_from_base64url_toString_utf8 payload = Ret text ∧
    JSON_parse text = Ret v.
Proof.
  intros Hres Hnull. rewrite decodeJWT_result in Hres.
  pose proof (join_split "." token) as Hjoin.
  pose proof (split_pieces "." token) as Hpieces.
  revert Hres Hjoin Hpieces.
  destruct (split "." token) as [| header [| payload [| signature [| ? ?]]]];
    intros Hres Hjoin Hpieces; try congruence.
  apply Forall_cons in Hpieces as [Hheader Hpieces].
  apply Forall_cons in Hpieces as [Hpayload Hpieces].
  apply Forall_cons in Hpieces as [Hsignature _].
  destruct (Buffer_from_base64url_toString_utf8 payload) as [text | e] eqn:Hbuf;
    cbn in Hres; [| congruence].
  destruct (JSON_parse text) as [v' | e] eqn:Hparse; [| congruence].
  exists header, payload, signature, text.
  cbn in Hjoin. repeat split; auto. congruence.
Qed.

(** X2. The decoder is silent unless a platform operation threw: a wrong
    number of segments gives [null] without a word, a returned payload
    was decoded without a word, and a throw is logged once, at error
    level, with the error thrown. *)
Theorem decodeJWT_console (token : string) :
  (length (split "." token) ≠ 3 → decodeJWT token = ([], Ret VNull)) ∧
  (∀ v : value, result (decodeJWT token) = Ret v → v ≠ VNull →
     logs (decodeJWT token) = []) ∧
  (∀ (header payload signature : string) (e : Error),
     split "." token = [header; payload; signature] →
     Buffer_from_base64url_toString_utf8 payload ≫= JSON_parse = Throw e →
     decodeJWT token =
     ([mkLog LevelError "[JWT] Failed to decode token:" (Some e)], Ret VNull)).
Proof.
  rewrite (M_eq (decodeJWT token)), decodeJWT_result, decodeJWT_logs.
  split; [| split].
  - intros Hlen. by_segments token; try reflexivity.
    exfalso. apply Hlen. reflexivity.
  - intros v Hv Hnull. cbn [logs fst]. cbn [result snd] in Hv.
    by_segments token; try reflexivity.
    destruct (Buffer_from_base64url_toString_utf8 _ ≫= JSON_parse);
      [reflexivity | congruence].
  - intros header payload signature e -> ->. reflexivity.
Qed.

End MoreOnDecoder.

(** The sample token is three segments, and its payload is the sample
    payload. *)
Lemma decodeJWT_payload_origin_witness :
  ∃ header payload signature text : string,
    scenario_token = header ++ "." ++ payload ++ "." ++ signature ∧
    occurs "." header = false ∧ occurs "." payload = false ∧
    occurs "." signature = false ∧
    Node.Buffer_from_base64url_toString_utf8 payload = Ret text ∧
    Node.JSON_parse text = Ret scenario_payload.
Proof.
  apply (@decodeJWT_payload_origin Node.platform scenario_token scenario_payload).
  - vm_compute. reflexivity.
  - discriminate.
Defined.

(** An empty header value and a text that is no JSON. *)
Lemma decodeJWT_console_witness :
  @decodeJWT Node.platform "" = ([], Ret VNull) ∧
  ∃ e : Error,
    @decodeJWT Node.platform undecodable_token =
    ([mkLog LevelError "[JWT] Failed to decode token:" (Some e)], Ret VNull).
Proof.
  split.
  - apply (proj1 (@decodeJWT_console Node.platform "")). vm_compute. discriminate.
  - eexists.
    apply (proj2 (proj2 (@decodeJWT_console Node.platform undecodable_token))
             "a" "b" "c"); vm_compute; reflexivity.
Defined.

(** ** More on the claim extractor *)

(** X3. The extractor reads five claims and nothing else: two payloads
    that agree on [email], [sub], [name], [picture] and [avatar_url]
    give the same user and the same console output, whatever else they
    carry ([exp] and [iat] included). *)
Theorem extractUserFromJWT_five_claims (payload1 payload2 : value) :
  payload1 ≠ VUndefined → payload1 ≠ VNull →
  payload2 ≠ VUndefined → payload2 ≠ VNull →
  (∀ k : string,
     k ∈ ["email"; "sub"; "name"; "picture"; "avatar_url"] →
     claim payload1 k = claim payload2 k) →
  extractUserFromJWT payload1 = extractUserFromJWT payload2.
Proof.
  intros Hu1 Hn1 Hu2 Hn2 Hagree.
  rewrite !extractUserFromJWT_run by assumption. unfold extracted.
  rewrite !(Hagree "email"), !(Hagree "sub"), !(Hagree "name"),
    !(Hagree "picture"), !(Hagree "avatar_url") by set_solver.
  reflexivity.
Qed.

(** A payload that expired long ago, issued by nobody known, extracts
    like the sample payload. *)
Lemma extractUserFromJWT_five_claims_witness :
  extractUserFromJWT
    (VObj [("iss", VStr "https://elsewhere.example"); ("exp", VNum one);
           ("sub", VStr "u1"); ("email", VStr "a@b.com")]) =
  extractUserFromJWT scenario_payload.
Proof.
  apply extractUserFromJWT_five_claims; try discriminate.
  intros k Hk.
  repeat (apply elem_of_cons in Hk as [-> | Hk]; [reflexivity |]).
  apply elem_of_nil in Hk. destruct Hk.
Defined.

(** X4. Only an object can carry claims: from a string, a number, a
    boolean or an array the extractor returns no user, with its warning;
    on [null] and [undefined] the first property read throws a
    [TypeError] before anything is written. *)
Theorem extractUserFromJWT_non_object (payload : value) :
  (∀ props : list (string * value), payload ≠ VObj props) →
  match payload with
  | VNull | VUndefined =>
      ∃ message : string,
        extractUserFromJWT payload = ([], Throw (TypeError message))
  | _ =>
      extractUserFromJWT payload =
      ([mkLog LevelWarn "[JWT] No email claim in token" None], Ret None)
  end.
Proof.
  intros Hobj. destruct payload; try (eexists; reflexivity); try reflexivity.
  destruct (Hobj props eq_refl).
Qed.

(** An array of claims is no claims payload. *)
Lemma extractUserFromJWT_non_object_witness :
  extractUserFromJWT (VArr [scenario_payload]) =
  ([mkLog LevelWarn "[JWT] No email claim in token" None], Ret None).
Proof.
  apply (extractUserFromJWT_non_object (VArr [scenario_payload])).
  intros props. discriminate.
Defined.

(** ** More on the session resolver *)

Lemma isMockAuthEnabled_insert (env : Env) (k v : string) :
  k ≠ "MOCK_AUTH" → k ≠ "NODE_ENV" →
  isMockAuthEnabled (<[k:=v]> env) = isMockAuthEnabled env.
Proof.
  intros Hflag Hmode. unfold isMockAuthEnabled.
  rewrite !lookup_insert_ne by assumption. reflexivity.
Qed.

Section MoreOnResolver.
Context {P : Platform}.

(** The whole run of the resolver, from the run of its header block. *)
Lemma getUserFromHeaders_run (env : Env) (headersList : Headers) :
  getUserFromHeaders env headersList =
  match result (fromHeader (headersList !! AUTH_HEADER)) with
  | Ret (Some session) =>
      (logs (fromHeader (headersList !! AUTH_HEADER)), Ret (Some session))
  | Ret None =>
      if isMockAuthEnabled env then
        ((logs (fromHeader (headersList !! AUTH_HEADER)) ++ [MOCK_LINE])%list,
         Ret (Some (UserSession.mk MOCK_USER None)))
      else
        ((logs (fromHeader (headersList !! AUTH_HEADER)) ++ [NO_USER_LINE])%list,
         Ret None)
  | Throw e => (logs (fromHeader (headersList !! AUTH_HEADER)), Throw e)
  end.
Proof.
  unfold getUserFromHeaders. cbv zeta.
  destruct (fromHeader (headersList !! AUTH_HEADER)) as [l [[session |] | e]];
    cbn; [rewrite app_nil_r; reflexivity | | reflexivity].
  destruct (isMockAuthEnabled env); reflexivity.
Qed.

(** The header yields an identity: it is there, not empty, decodes, and
    the extractor gets a user from the payload. *)
Lemma fromHeader_Some (forwardedUser : option string) (session : UserSession.t) :
  result (fromHeader forwardedUser) = Ret (Some session) ↔
  ∃ (token : string) (payload : value),
    forwardedUser = Some token ∧ token ≠ "" ∧
    result (decodeJWT token) = Ret payload ∧
    result (extractUserFromJWT payload) =
    Ret (Some (UserSession.user session)) ∧
    UserSession.access_token session = Some token.
Proof.
  split.
  - intros Hres.
    destruct (fromHeader_returns forwardedUser) as (r & Hr & Hfrom).
    rewrite Hr in Hres. injection Hres as ->.
    destruct (Hfrom session eq_refl)
      as (token & payload & -> & Htoken & Hdec & Htruthy & Hemail & ->).
    exists token, payload. repeat split; auto.
    rewrite extractUserFromJWT_run by (intros ->; discriminate).
    rewrite Hemail. reflexivity.
  - intros (token & payload & -> & Htoken & Hdec & Hext & Htok).
    rewrite fromHeader_present, Hdec by assumption.
    destruct (extractUserFromJWT_Some_truthy _ _ Hext) as [-> _].
    rewrite Hext. destruct session as [user access_token].
    cbn in Htok |- *. subst access_token. reflexivity.
Qed.

(** X5. The [access_token] of a session tells where it came from. When
    it is there, it is the raw trust header, not empty, and the user was
    extracted from the payload that header decodes to. When it is
    missing, the user is the mock user and mock authentication is on. *)
Theorem session_origin
    (env : Env) (headersList : Headers) (session : UserSession.t) :
  result (getUserFromHeaders env headersList) = Ret (Some session) →
  match UserSession.access_token session with
  | Some token =>
      headersList !! AUTH_HEADER = Some token ∧ token ≠ "" ∧
      ∃ payload : value,
        result (decodeJWT token) = Ret payload ∧
        result (extractUserFromJWT payload) =
        Ret (Some (UserSession.user session))
  | None =>
      UserSession.user session = MOCK_USER ∧ isMockAuthEnabled env = true
  end.
Proof.
  rewrite getUserFromHeaders_result.
  destruct (result (fromHeader (headersList !! AUTH_HEADER)))
    as [[s |] | e] eqn:Hfrom; [| | discriminate].
  - intros [= ->].
    apply fromHeader_Some in Hfrom
      as (token & payload & Hget & Htoken & Hdec & Hext & ->).
    eauto.
  - destruct (isMockAuthEnabled env); [| discriminate].
    intros [= <-]. cbn. auto.
Qed.

(** X6. The resolver answers none exactly when mock authentication is
    off and the trust header yields no identity. *)
Theorem no_session_iff (env : Env) (headersList : Headers) :
  result (getUserFromHeaders env headersList) = Ret None ↔
  isMockAuthEnabled env = false ∧
  ¬ ∃ (token : string) (payload : value) (user : User.t),
      headersList !! AUTH_HEADER = Some token ∧ token ≠ "" ∧
      result (decodeJWT token) = Ret payload ∧
      result (extractUserFromJWT payload) = Ret (Some user).
Proof.
  rewrite getUserFromHeaders_result.
  destruct (fromHeader_returns (headersList !! AUTH_HEADER)) as (r & Hr & _).
  split.
  - intros Hnone. rewrite Hr in Hnone. destruct r as [s |]; [discriminate |].
    destruct (isMockAuthEnabled env); [discriminate |].
    split; [reflexivity |].
    intros (token & payload & user & Hget & Htoken & Hdec & Hext).
    assert (result (fromHeader (headersList !! AUTH_HEADER)) =
            Ret (Some (UserSession.mk user (Some token)))) as Hsome.
    { apply fromHeader_Some. exists token, payload. auto. }
    congruence.
  - intros [-> Hno]. rewrite Hr. destruct r as [s |]; [| reflexivity].
    exfalso. apply Hno.
    apply fromHeader_Some in Hr
      as (token & payload & Hget & Htoken & Hdec & Hext & _).
    eauto 10.
Qed.

(** X7. The resolver reads one header and two environment variables:
    setting any other header, or any other variable, changes neither
    its result nor its console output. *)
Theorem getUserFromHeaders_reads
    (env : Env) (headersList : Headers) (k v : string) :
  (k ≠ AUTH_HEADER →
   getUserFromHeaders env (<[k:=v]> headersList) =
   getUserFromHeaders env headersList) ∧
  (k ≠ "MOCK_AUTH" → k ≠ "NODE_ENV" →
   getUserFromHeaders (<[k:=v]> env) headersList =
   getUserFromHeaders env headersList).
Proof.
  split.
  - intros Hk. unfold getUserFromHeaders.
    rewrite lookup_insert_ne by assumption. reflexivity.
  - intros Hflag Hmode. rewrite !getUserFromHeaders_run.
    rewrite isMockAuthEnabled_insert by assumption. reflexivity.
Qed.

End MoreOnResolver.

Section ResolverConsole.
Context {P : Platform}.

(** A session that leaves the header block leaves it in silence. *)
Lemma fromHeader_quiet (forwardedUser : option string) (session : UserSession.t) :
  result (fromHeader forwardedUser) = Ret (Some session) →
  fromHeader forwardedUser = ([], Ret (Some session)).
Proof.
  intros Hres.
  apply fromHeader_Some in Hres
    as (token & payload & -> & Htoken & Hdec & Hext & Htok).
  destruct (extractUserFromJWT_Some_truthy _ _ Hext) as [Htruthy Hrun].
  assert (payload ≠ VNull) as Hnull by (intros ->; discriminate).
  unfold fromHeader.
  rewrite (proj2 (String.eqb_neq token "")) by assumption.
  rewrite (decodeJWT_quiet token payload Hdec Hnull). cbn.
  rewrite Htruthy. cbn. rewrite Hrun. cbn.
  destruct session as [user access_token]. cbn in Htok. subst access_token.
  reflexivity.
Qed.

(** The header block on a header that decodes to a falsy payload. *)
Lemma fromHeader_invalid (token : string) (payload : value) :
  token ≠ "" → result (decodeJWT token) = Ret payload →
  truthy payload = false →
  fromHeader (Some token) =
  ((logs (decodeJWT token)
    ++ [mkLog LevelWarn "[Auth] Invalid JWT in header" None])%list,
   Ret None).
Proof.
  intros Htoken Hdec Hfalsy. unfold fromHeader.
  rewrite (proj2 (String.eqb_neq token "")) by assumption.
  rewrite (M_eq (decodeJWT token)), Hdec. cbn. rewrite Hfalsy. reflexivity.
Qed.

(** The header block on a payload the extractor gets no user from. *)
Lemma fromHeader_no_user (token : string) (payload : value) :
  token ≠ "" → result (decodeJWT token) = Ret payload →
  truthy payload = true →
  result (extractUserFromJWT payload) = Ret None →
  fromHeader (Some token) =
  ([mkLog LevelWarn "[JWT] No email claim in token" None;
    mkLog LevelWarn "[Auth] Could not extract user from JWT" None],
   Ret None).
Proof.
  intros Htoken Hdec Htruthy Hext.
  assert (payload ≠ VUndefined ∧ payload ≠ VNull) as [Hu Hn]
    by (split; intros ->; discriminate).
  unfold fromHeader.
  rewrite (proj2 (String.eqb_neq token "")) by assumption.
  rewrite (decodeJWT_quiet token payload Hdec Hn). cbn. rewrite Htruthy. cbn.
  rewrite extractUserFromJWT_run in Hext |- * by assumption.
  destruct (truthy (claim payload "email")); [discriminate | reflexivity].
Qed.

(** X8. Every outcome of the resolver shows on the console. A session
    from the header is resolved in silence. A mock session ends on the
    mock line, no session on the no-user line. A header that decodes to
    nothing usable is warned about as an invalid JWT, and a payload
    without a user as one no user could be extracted from. *)
Theorem getUserFromHeaders_console (env : Env) (headersList : Headers) :
  (∀ session : UserSession.t,
     result (getUserFromHeaders env headersList) = Ret (Some session) →
     UserSession.access_token session ≠ None →
     logs (getUserFromHeaders env headersList) = []) ∧
  (∀ session : UserSession.t,
     result (getUserFromHeaders env headersList) = Ret (Some session) →
     UserSession.access_token session = None →
     last (logs (getUserFromHeaders env headersList)) = Some MOCK_LINE) ∧
  (result (getUserFromHeaders env headersList) = Ret None →
   last (logs (getUserFromHeaders env headersList)) = Some NO_USER_LINE) ∧
  (∀ (token : string) (payload : value),
     headersList !! AUTH_HEADER = Some token → token ≠ "" →
     result (decodeJWT token) = Ret payload →
     (truthy payload = false →
      mkLog LevelWarn "[Auth] Invalid JWT in header" None
      ∈ logs (getUserFromHeaders env headersList)) ∧
     (truthy payload = true →
      result (extractUserFromJWT payload) = Ret None →
      mkLog LevelWarn "[Auth] Could not extract user from JWT" None
      ∈ logs (getUserFromHeaders env headersList))).
Proof.
  rewrite getUserFromHeaders_run.
  destruct (result (fromHeader (headersList !! AUTH_HEADER)))
    as [[s |] | e] eqn:Hfrom.
  - pose proof (fromHeader_quiet _ _ Hfrom) as Hrun.
    apply fromHeader_Some in Hfrom
      as (token & payload & Hget & Htoken & Hdec & Hext & Htok).
    rewrite Hrun. cbn. split; [reflexivity |].
    split; [intros session [= <-]; congruence |].
    split; [discriminate |].
    intros token' payload' Hget' Htoken' Hdec'.
    assert (token' = token) as -> by congruence.
    assert (payload' = payload) as -> by congruence.
    destruct (extractUserFromJWT_Some_truthy _ _ Hext) as [Htruthy _].
    split; intros; congruence.
  - destruct (isMockAuthEnabled env); cbn.
    + split; [intros session [= <-]; cbn; congruence |].
      split; [intros; apply last_snoc |].
      split; [discriminate |].
      intros token payload Hget Htoken Hdec. rewrite Hget.
      split.
      * intros Hfalsy.
        rewrite (fromHeader_invalid token payload) by assumption. cbn.
        set_solver.
      * intros Htruthy Hext.
        rewrite (fromHeader_no_user token payload) by assumption. cbn.
        set_solver.
    + split; [discriminate |]. split; [discriminate |].
      split; [intros; apply last_snoc |].
      intros token payload Hget Htoken Hdec. rewrite Hget.
      split.
      * intros Hfalsy.
        rewrite (fromHeader_invalid token payload) by assumption. cbn.
        set_solver.
      * intros Htruthy Hext.
        rewrite (fromHeader_no_user token payload) by assumption. cbn.
        set_solver.
  - destruct (fromHeader_returns (headersList !! AUTH_HEADER)) as (r & Hr & _).
    congruence.
Qed.

End ResolverConsole.

(** A header-derived session, the mock session, and a request that
    carries its user in [x-forwarded-user] only. *)
Lemma session_origin_witness :
  (({[ AUTH_HEADER := scenario_token ]} : Headers) !! AUTH_HEADER =
   Some scenario_token ∧ scenario_token ≠ "" ∧
   ∃ payload : value,
     result (@decodeJWT Node.platform scenario_token) = Ret payload ∧
     result (extractUserFromJWT payload) = Ret (Some (extracted scenario_payload))) ∧
  (MOCK_USER = MOCK_USER ∧
   isMockAuthEnabled {[ "MOCK_AUTH" := "true" ]} = true).
Proof.
  split.
  - apply (@session_origin Node.platform ∅ {[ AUTH_HEADER := scenario_token ]}
             (UserSession.mk (extracted scenario_payload) (Some scenario_token))).
    vm_compute. reflexivity.
  - apply (@session_origin Node.platform {[ "MOCK_AUTH" := "true" ]} ∅
             (UserSession.mk MOCK_USER None)).
    vm_compute. reflexivity.
Defined.

Lemma getUserFromHeaders_reads_witness :
  @getUserFromHeaders Node.platform ∅ (<[ "x-forwarded-user" := "alice" ]> ∅) =
  @getUserFromHeaders Node.platform ∅ ∅ ∧
  @getUserFromHeaders Node.platform (<[ "MOCK_USER" := "true" ]> ∅) ∅ =
  @getUserFromHeaders Node.platform ∅ ∅.
Proof.
  split.
  - apply (proj1 (@getUserFromHeaders_reads Node.platform ∅ ∅
                    "x-forwarded-user" "alice")).
    vm_compute. discriminate.
  - apply (proj2 (@getUserFromHeaders_reads Node.platform ∅ ∅
                    "MOCK_USER" "true")); vm_compute; discriminate.
Defined.

(** A header that is no token, with mock authentication on and off. *)
Lemma getUserFromHeaders_console_witness :
  last (logs (@getUserFromHeaders Node.platform {[ "MOCK_AUTH" := "true" ]}
                {[ AUTH_HEADER := malformed_token ]})) = Some MOCK_LINE ∧
  last (logs (@getUserFromHeaders Node.platform ∅
                {[ AUTH_HEADER := malformed_token ]})) = Some NO_USER_LINE ∧
  mkLog LevelWarn "[Auth] Invalid JWT in header" None
  ∈ logs (@getUserFromHeaders Node.platform ∅
            {[ AUTH_HEADER := malformed_token ]}).
Proof.
  split; [| split].
  - apply (proj1 (proj2 (@getUserFromHeaders_console Node.platform
                           {[ "MOCK_AUTH" := "true" ]}
                           {[ AUTH_HEADER := malformed_token ]}))
             (UserSession.mk MOCK_USER None));
      vm_compute; reflexivity.
  - apply (proj1 (proj2 (proj2 (@getUserFromHeaders_console Node.platform ∅
                                   {[ AUTH_HEADER := malformed_token ]})))).
    vm_compute. reflexivity.
  - destruct (proj2 (proj2 (proj2
                (@getUserFromHeaders_console Node.platform ∅
                   {[ AUTH_HEADER := malformed_token ]})))
                malformed_token VNull) as [Hinvalid _];
      [vm_compute; reflexivity | discriminate | vm_compute; reflexivity |].
    apply Hinvalid. reflexivity.
Defined.

(** ** More on the session endpoint *)

Section MoreOnRoute.
Context {P : Platform}.

(** X9. For a trust header that yields an identity, the endpoint hands
    the browser the extracted user together with the raw header as
    [access_token], whatever the environment is. *)
Theorem GET_echoes_header
    (env : Env) (headersList : Headers) (token : string)
    (payload : value) (user : User.t) :
  headersList !! AUTH_HEADER = Some token →
  token ≠ "" →
  result (decodeJWT token) = Ret payload →
  result (extractUserFromJWT payload) = Ret (Some user) →
  result (GET env headersList) =
  Ret (mkResponse 200
         (VObj [("user", User_object user); ("access_token", VStr token)])).
Proof.
  intros Hget Htoken Hdec Hext.
  assert (result (fromHeader (headersList !! AUTH_HEADER)) =
          Ret (Some (UserSession.mk user (Some token)))) as Hfrom.
  { apply fromHeader_Some. exists token, payload. auto. }
  unfold GET. rewrite result_bind, getUserFromHeaders_result, Hfrom.
  reflexivity.
Qed.

End MoreOnRoute.

Lemma GET_echoes_header_witness :
  result (@GET Node.platform {[ "NODE_ENV" := "development" ]}
            {[ AUTH_HEADER := scenario_token ]}) =
  Ret (mkResponse 200
         (VObj [("user", User_object (extracted scenario_payload));
                ("access_token", VStr scenario_token)])).
Proof.
  apply (@GET_echoes_header Node.platform _ _ scenario_token scenario_payload);
    solve [vm_compute; reflexivity | discriminate].
Defined.

(** ** More on the compatibility adapter *)

(** X10. A team is never left without a name while its user has an
    email: whenever [useAuth] derives a team whose email is truthy, the
    team's name is truthy too. *)
Theorem useAuth_team_named (ctx : UserContextValue) (team : UserTeam.t) :
  userTeam (useAuth ctx) = Some team →
  truthy (UserTeam.email team) = true →
  truthy (UserTeam.name team) = true.
Proof.
  unfold useAuth. cbn. destruct (ctx_session ctx) as [s |]; [| discriminate].
  intros [= <-]. cbn. unfold JS.or.
  destruct (truthy (User.name (UserSession.user s))) eqn:Hname; auto.
Qed.

Lemma useAuth_team_named_witness :
  truthy (UserTeam.name
            (UserTeam.mk (VStr "u1") (VStr "a@b.com") (VStr "a@b.com") "default")) =
  true.
Proof.
  apply (useAuth_team_named
           {| ctx_session := Some empty_name_session; ctx_isLoading := false |}
           (UserTeam.mk (VStr "u1") (VStr "a@b.com") (VStr "a@b.com") "default"));
    reflexivity.
Defined.

(** ** The client session store *)

Section StoreProperties.
Context {B : Client.Browser}.

(** The [try] block fails in its first three steps: the request, the
    reading of the body, or the [user] property read on a [null] body. *)
Lemma fetchUser_failed (w : Client.World) (e : Error) :
  (response ← Client.fetch "/api/auth/user";
   data ← Client.response_json response;
   get data "user") = Throw e →
  Client.fetchUser w =
  (Client.mkWorld (Client.session w) false
     (Client.console w
      ++ [mkLog LevelError "[UserContext] Failed to fetch user:" (Some e)])%list
     (Client.identified w),
   Ret tt).
Proof.
  intros Hfail. run_store.
  destruct (Client.fetch "/api/auth/user") as [response | e1];
    cbn -[get] in Hfail |- *.
  - destruct (Client.response_json response) as [data | e2];
      cbn -[get] in Hfail |- *.
    + rewrite Hfail. reflexivity.
    + injection Hfail as ->. reflexivity.
  - injection Hfail as ->. reflexivity.
Qed.

Lemma fetchUser_no_user (w : Client.World) (data user : value) :
  Client.fetch "/api/auth/user" ≫= Client.response_json = Ret data →
  get data "user" = Ret user → truthy user = false →
  Client.fetchUser w =
  (Client.mkWorld (Client.session w) false (Client.console w)
     (Client.identified w),
   Ret tt).
Proof.
  intros Hdata Huser Hfalsy. run_store.
  destruct (Client.fetch "/api/auth/user") as [response | e1];
    cbn in Hdata |- *; [| discriminate].
  rewrite Hdata, Huser, Hfalsy. reflexivity.
Qed.

Lemma fetchUser_user (w : Client.World) (data user : value) :
  Client.fetch "/api/auth/user" ≫= Client.response_json = Ret data →
  get data "user" = Ret user → truthy user = true →
  Client.fetchUser w =
  let stored := Client.mkSession user (claim data "access_token") in
  let call := Client.mkIdentify (claim user "id") (claim user "email")
                                (claim user "name") in
  match Client.posthog with
  | None =>
      (Client.mkWorld (Some stored) false (Client.console w)
         (Client.identified w), Ret tt)
  | Some client =>
      match client call with
      | Ret _ =>
          (Client.mkWorld (Some stored) false (Client.console w)
             (Client.identified w ++ [call])%list, Ret tt)
      | Throw e =>
          (Client.mkWorld (Some stored) false
             (Client.console w
              ++ [mkLog LevelError "[UserContext] Failed to fetch user:"
                        (Some e)])%list
             (Client.identified w ++ [call])%list, Ret tt)
      end
  end.
Proof.
  intros Hdata Huser Htruthy.
  assert (data ≠ VUndefined ∧ data ≠ VNull) as [Hdu Hdn]
    by (split; intros ->; discriminate).
  assert (user ≠ VUndefined ∧ user ≠ VNull) as [Huu Hun]
    by (split; intros ->; discriminate).
  run_store.
  destruct (Client.fetch "/api/auth/user") as [response | e1];
    cbn in Hdata |- *; [| discriminate].
  rewrite Hdata, Huser, Htruthy.
  rewrite (get_claim data "access_token") by assumption.
  destruct Client.posthog as [client |]; cbn -[get truthy claim];
    [| reflexivity].
  rewrite !(get_claim user) by assumption.
  destruct (client _) as [[] | e]; reflexivity.
Qed.

End StoreProperties.

Section StoreTheorems.
Context {B : Client.Browser}.

(** The first three steps of the [try] block throw, or give a body and
    its [user] property. *)
Lemma fetchUser_steps :
  (∃ e : Error,
     (response ← Client.fetch "/api/auth/user";
      data ← Client.response_json response;
      get data "user") = Throw e) ∨
  (∃ data user : value,
     Client.fetch "/api/auth/user" ≫= Client.response_json = Ret data ∧
     get data "user" = Ret user).
Proof.
  destruct (Client.fetch "/api/auth/user") as [response | e]; cbn -[get];
    [| left; eauto].
  destruct (Client.response_json response) as [data | e]; cbn -[get];
    [| left; eauto].
  destruct (get data "user") as [user | e] eqn:Huser; [right | left]; eauto.
Qed.

(** The effect always returns, with the loading flag down. *)
Lemma fetchUser_loaded (w : Client.World) :
  ∃ w' : Client.World,
    Client.fetchUser w = (w', Ret tt) ∧ Client.isLoading w' = false ∧
    (Client.session w' = Client.session w ∨
     ∃ data user : value,
       Client.fetch "/api/auth/user" ≫= Client.response_json = Ret data ∧
       get data "user" = Ret user ∧ truthy user = true ∧
       Client.session w' =
       Some (Client.mkSession user (claim data "access_token"))).
Proof.
  destruct fetchUser_steps as [[e Hfail] | (data & user & Hdata & Huser)].
  - rewrite (fetchUser_failed w e Hfail). eexists. split; [reflexivity |].
    cbn. auto.
  - destruct (truthy user) eqn:Htruthy.
    + rewrite (fetchUser_user w data user Hdata Huser Htruthy). cbv zeta.
      destruct Client.posthog as [client |];
        [destruct (client _) as [[] | e] |];
        (eexists; split; [reflexivity |]; cbn; split; [reflexivity |];
         right; exists data, user; auto).
    + rewrite (fetchUser_no_user w data user Hdata Huser Htruthy).
      eexists. split; [reflexivity |]. cbn. auto.
Qed.

(** X11. Whatever the network, the body and the analytics client do, the
    effect returns (its promise never rejects), leaves [isLoading] false,
    and never clears a session: one that was stored is stored after. *)
Theorem fetchUser_settles (w : Client.World) :
  ∃ w' : Client.World,
    Client.fetchUser w = (w', Ret tt) ∧
    Client.isLoading w' = false ∧
    (is_Some (Client.session w) → is_Some (Client.session w')).
Proof.
  destruct (fetchUser_loaded w) as (w' & Hrun & Hloading & Hsession).
  exists w'. split; [exact Hrun |]. split; [exact Hloading |].
  destruct Hsession as [-> | (data & user & _ & _ & _ & ->)]; eauto.
Qed.

(** X12. A request that fails, a body that is no JSON, and a body that
    is [null] all end the same way: the session is as it was, the error
    is on the console, once, no analytics call was made, and loading is
    over. *)
Theorem fetchUser_failure (w : Client.World) (e : Error) :
  Client.fetch "/api/auth/user" = Throw e ∨
  (∃ response : Client.FetchResponse,
     Client.fetch "/api/auth/user" = Ret response ∧
     (Client.response_json response = Throw e ∨
      Client.response_json response = Ret VNull ∧
      e = TypeError "Cannot read properties of null")) →
  Client.fetchUser w =
  (Client.mkWorld (Client.session w) false
     (Client.console w
      ++ [mkLog LevelError "[UserContext] Failed to fetch user:" (Some e)])%list
     (Client.identified w),
   Ret tt).
Proof.
  intros Hcause. apply fetchUser_failed.
  destruct Hcause as [Hfetch | (response & Hfetch & [Hjson | [Hjson ->]])];
    rewrite Hfetch; cbn -[get]; try rewrite Hjson; reflexivity.
Qed.

(** X13. A body without a user (its [user] property missing, [null] or
    otherwise falsy) leaves the store as it was, but for the loading
    flag: nothing is logged, nothing is sent to analytics, and a session
    stored earlier stays. *)
Theorem fetchUser_anonymous
    (w : Client.World) (response : Client.FetchResponse) (data : value) :
  Client.fetch "/api/auth/user" = Ret response →
  Client.response_json response = Ret data →
  data ≠ VNull → data ≠ VUndefined →
  truthy (claim data "user") = false →
  Client.fetchUser w =
  (Client.mkWorld (Client.session w) false (Client.console w)
     (Client.identified w),
   Ret tt).
Proof.
  intros Hfetch Hjson Hn Hu Hfalsy.
  apply (fetchUser_no_user w data (claim data "user")).
  - rewrite Hfetch. exact Hjson.
  - apply get_claim; assumption.
  - exact Hfalsy.
Qed.

(** X14. A body with a user is stored as it came: the session holds the
    body's [user] and [access_token] properties, checked no further,
    and holds them even when the analytics client throws. *)
Theorem fetchUser_stores
    (w : Client.World) (response : Client.FetchResponse) (data : value) :
  Client.fetch "/api/auth/user" = Ret response →
  Client.response_json response = Ret data →
  truthy (claim data "user") = true →
  ∃ w' : Client.World,
    Client.fetchUser w = (w', Ret tt) ∧
    Client.session w' =
    Some (Client.mkSession (claim data "user") (claim data "access_token")) ∧
    Client.isLoading w' = false.
Proof.
  intros Hfetch Hjson Htruthy.
  assert (data ≠ VUndefined ∧ data ≠ VNull) as [Hu Hn]
    by (split; intros ->; discriminate).
  rewrite (fetchUser_user w data (claim data "user"));
    [| rewrite Hfetch; exact Hjson | apply get_claim; assumption | exact Htruthy].
  cbv zeta. destruct Client.posthog as [client |];
    [destruct (client _) as [[] | e] |]; eexists; repeat split.
Qed.

(** X15. The analytics client hears of a user exactly once per fetch,
    and only of a user that was fetched: with a client and a truthy
    [user] in the body, one [identify] call is made, with the [id],
    [email] and [name] of that user; without a client, or without a
    user, none is made. *)
Theorem fetchUser_identifies (w : Client.World) :
  (∀ (response : Client.FetchResponse) (data : value)
     (client : Client.Identify → outcome unit),
     Client.fetch "/api/auth/user" = Ret response →
     Client.response_json response = Ret data →
     truthy (claim data "user") = true →
     Client.posthog = Some client →
     Client.identified (Client.fetchUser w).1 =
     (Client.identified w
      ++ [Client.mkIdentify (claim (claim data "user") "id")
                            (claim (claim data "user") "email")
                            (claim (claim data "user") "name")])%list) ∧
  (Client.posthog = None →
   Client.identified (Client.fetchUser w).1 = Client.identified w) ∧
  ((¬ ∃ (response : Client.FetchResponse) (data : value),
        Client.fetch "/api/auth/user" = Ret response ∧
        Client.response_json response = Ret data ∧
        truthy (claim data "user") = true) →
   Client.identified (Client.fetchUser w).1 = Client.identified w).
Proof.
  split; [| split].
  - intros response data client Hfetch Hjson Htruthy Hclient.
    assert (data ≠ VUndefined ∧ data ≠ VNull) as [Hu Hn]
      by (split; intros ->; discriminate).
    rewrite (fetchUser_user w data (claim data "user"));
      [| rewrite Hfetch; exact Hjson | apply get_claim; assumption
       | exact Htruthy].
    cbv zeta. rewrite Hclient. destruct (client _) as [[] | e]; reflexivity.
  - intros Hclient.
    destruct fetchUser_steps as [[e Hfail] | (data & user & Hdata & Huser)].
    + rewrite (fetchUser_failed w e Hfail). reflexivity.
    + destruct (truthy user) eqn:Htruthy.
      * rewrite (fetchUser_user w data user Hdata Huser Htruthy). cbv zeta.
        rewrite Hclient. reflexivity.
      * rewrite (fetchUser_no_user w data user Hdata Huser Htruthy).
        reflexivity.
  - intros Hnone.
    destruct fetchUser_steps as [[e Hfail] | (data & user & Hdata & Huser)].
    + rewrite (fetchUser_failed w e Hfail). reflexivity.
    + destruct (truthy user) eqn:Htruthy.
      * exfalso. apply Hnone.
        destruct (Client.fetch "/api/auth/user") as [response | e] eqn:Hfetch;
          cbn in Hdata; [| discriminate].
        exists response, data. split; [reflexivity |]. split; [exact Hdata |].
        unfold claim. rewrite Huser. exact Htruthy.
      * rewrite (fetchUser_no_user w data user Hdata Huser Htruthy).
        reflexivity.
Qed.

End StoreTheorems.

(** Offline, from the initial state. *)
Lemma fetchUser_failure_witness :
  @Client.fetchUser offline Client.initial =
  (Client.mkWorld None false
     [mkLog LevelError "[UserContext] Failed to fetch user:"
            (Some (TypeError "Failed to fetch"))] [],
   Ret tt).
Proof.
  apply (@fetchUser_failure offline Client.initial (TypeError "Failed to fetch")).
  left. reflexivity.
Defined.

(** The body [{ user: null }], from the initial state. *)
Lemma fetchUser_anonymous_witness :
  @Client.fetchUser (served (VObj [("user", VNull)]) (Some accepting))
    Client.initial =
  (Client.mkWorld None false [] [], Ret tt).
Proof.
  apply (@fetchUser_anonymous (served (VObj [("user", VNull)]) (Some accepting))
           Client.initial (VObj [("user", VNull)]) (VObj [("user", VNull)]));
    solve [reflexivity | discriminate].
Defined.

(** The body of the first scenario, with an analytics client that
    throws: the session is stored all the same. *)
Lemma fetchUser_stores_witness :
  ∃ w' : Client.World,
    @Client.fetchUser (served scenario_body (Some failing)) Client.initial =
    (w', Ret tt) ∧
    Client.session w' =
    Some (Client.mkSession
            (VObj [("id", VStr "u1"); ("email", VStr "a@b.com")])
            (VStr scenario_token)) ∧
    Client.isLoading w' = false.
Proof.
  apply (@fetchUser_stores (served scenario_body (Some failing))
           Client.initial scenario_body scenario_body); reflexivity.
Defined.

(** The body of the first scenario, with an analytics client. *)
Lemma fetchUser_identifies_witness :
  Client.identified
    (@Client.fetchUser (served scenario_body (Some accepting)) Client.initial).1 =
  [Client.mkIdentify (VStr "u1") (VStr "a@b.com") VUndefined].
Proof.
  apply (proj1 (@fetchUser_identifies (served scenario_body (Some accepting))
                  Client.initial)
           scenario_body scenario_body accepting); reflexivity.
Defined.

(** ** The store, the hook and the endpoint together *)

Section StoreAndHook.
Context {B : Client.Browser}.

(** X16. Once the effect has run, a component that calls [useAuth] on
    what the provider shows is never told that loading goes on; it gets
    a team exactly when a session is stored, and that team has the [id]
    and [email] of the stored user and its [name], or its [email] when
    the name is falsy. *)
Theorem useAuth_after_fetchUser (w : Client.World) (ctx : UserContextValue) :
  Client.shows ctx (Client.fetchUser w).1 →
  isLoading (useAuth ctx) = false ∧
  (userTeam (useAuth ctx) = None ↔
   Client.session (Client.fetchUser w).1 = None) ∧
  ∀ (team : UserTeam.t) (stored : Client.Session),
    userTeam (useAuth ctx) = Some team →
    Client.session (Client.fetchUser w).1 = Some stored →
    UserTeam.id team = claim (Client.user stored) "id" ∧
    UserTeam.email team = claim (Client.user stored) "email" ∧
    UserTeam.name team =
    JS.or (claim (Client.user stored) "name")
          (claim (Client.user stored) "email").
Proof.
  destruct (fetchUser_loaded w) as (w' & -> & Hloading & _). cbn [fst].
  intros [Hflag Hsession]. unfold useAuth. cbn.
  split; [congruence |].
  destruct (ctx_session ctx) as [s |], (Client.session w') as [c |];
    try destruct Hsession as (Hid & Hemail & Hname & _).
  - split; [split; discriminate |].
    intros team stored [= <-] [= <-]. cbn. rewrite Hid, Hemail, Hname. auto.
  - destruct Hsession.
  - destruct Hsession.
  - split; [split; reflexivity |]. discriminate.
Qed.

End StoreAndHook.

Section EndToEnd.
Context {P : Platform} {B : Client.Browser}.

(** X17. When the resolver finds no session and the body the endpoint
    answers with reaches the browser, the store stays as it was but for
    the loading flag, and in silence: being anonymous is no error on
    either side. *)
Theorem anonymous_end_to_end
    (env : Env) (headersList : Headers) (answer : Response)
    (response : Client.FetchResponse) (w : Client.World) :
  result (getUserFromHeaders env headersList) = Ret None →
  result (GET env headersList) = Ret answer →
  Client.fetch "/api/auth/user" = Ret response →
  Client.response_json response = Ret (body answer) →
  status answer = 200%Z ∧
  Client.fetchUser w =
  (Client.mkWorld (Client.session w) false (Client.console w)
     (Client.identified w),
   Ret tt).
Proof.
  intros Hnone Hanswer Hfetch Hjson.
  unfold GET in Hanswer. rewrite result_bind, Hnone in Hanswer.
  injection Hanswer as <-. split; [reflexivity |].
  apply (fetchUser_no_user w (VObj [("user", VNull)]) VNull);
    [rewrite Hfetch; exact Hjson | reflexivity | reflexivity].
Qed.

End EndToEnd.

(** The provider after the body of the first scenario, seen through a
    context of the declared type. *)
Lemma useAuth_after_fetchUser_witness :
  let ctx :=
    {| ctx_session :=
         Some (UserSession.mk
                 (User.mk (VStr "u1") (VStr "a@b.com") VUndefined VUndefined)
                 (Some scenario_token));
       ctx_isLoading := false |} in
  isLoading (useAuth ctx) = false ∧
  userTeam (useAuth ctx) =
  Some (UserTeam.mk (VStr "u1") (VStr "a@b.com") (VStr "a@b.com") "default").
Proof.
  intros ctx.
  destruct (@useAuth_after_fetchUser (served scenario_body None)
              Client.initial ctx) as (Hloading & _ & _).
  - repeat split.
  - split; [exact Hloading | reflexivity].
Defined.

(** A request without headers in production, and the browser that gets
    the answer. *)
Lemma anonymous_end_to_end_witness :
  @Client.fetchUser (served (VObj [("user", VNull)]) None) Client.initial =
  (Client.mkWorld None false [] [], Ret tt).
Proof.
  apply (@anonymous_end_to_end Node.platform
           (served (VObj [("user", VNull)]) None)
           {[ "NODE_ENV" := "production" ]} ∅
           (mkResponse 200 (VObj [("user", VNull)]))
           (VObj [("user", VNull)]) Client.initial);
    vm_compute; reflexivity.
Defined.
